(** * The result renderer of static/app.js

    A shallow embedding of [clearResults] and [displayResults] from
    static/app.js, together with the part of the JavaScript runtime they
    call: property reads on parsed JSON, [ToString], [ToBoolean],
    [parseFloat], [Number.prototype.toFixed], [toLocaleString], the
    nullish operators, and the little of the DOM and of Chart.js that the
    two functions touch.

    Numbers are IEEE 754 binary64 values ([spec_float] with precision 53
    and exponent bound 1024); strings are byte strings, the UTF-8
    encoding of the text. *)

From Stdlib Require Import ZArith String Ascii List Lia.
From Stdlib Require Import Floats.SpecFloat.
From stdpp Require Import gmap strings.

Local Open Scope string_scope.
Local Open Scope Z_scope.

(** ** Decimal digits *)

Module Digits.

Definition digit_char (d : Z) : ascii := ascii_of_nat (48 + Z.to_nat d).

(** [low_digits k n acc]: the [k] low decimal digits of [n], most
    significant first, in front of [acc]. *)
Fixpoint low_digits (k : nat) (n : Z) (acc : string) : string :=
  match k with
  | O => acc
  | S k' => low_digits k' (n / 10) (String (digit_char (n mod 10)) acc)
  end.

Definition fixed_digits (k : nat) (n : Z) : string := low_digits k n EmptyString.

Fixpoint count_digits (fuel : nat) (n : Z) : nat :=
  match fuel with
  | O => 1%nat
  | S f => if n <? 10 then 1%nat else S (count_digits f (n / 10))
  end.

(** Number of decimal digits of [n >= 0] (1 for 0). *)
Definition ndigits (n : Z) : nat := count_digits (Z.to_nat (Z.log2 n)) n.

(** Decimal representation of [n >= 0], without leading zeros. *)
Definition of_Z (n : Z) : string := fixed_digits (ndigits n) n.

Fixpoint zeros (k : nat) : string :=
  match k with
  | O => EmptyString
  | S k' => String "0" (zeros k')
  end.

Definition is_digit (c : ascii) : bool :=
  let n := nat_of_ascii c in ((48 <=? n) && (n <=? 57))%nat.

Definition digit_val (c : ascii) : Z := Z.of_nat (nat_of_ascii c) - 48.

(** Reads the longest run of decimal digits at the head of [s]; [acc]
    and [cnt] are the value and the number of digits read so far. *)
Fixpoint scan_digits (s : string) (acc : Z) (cnt : nat) : Z * nat * string :=
  match s with
  | String c r =>
      if is_digit c then scan_digits r (10 * acc + digit_val c) (S cnt)
      else (acc, cnt, s)
  | EmptyString => (acc, cnt, s)
  end.

End Digits.

(** ** Numbers: binary64 and the Number builtins *)

Module Num.
Import Digits.

Definition number : Type := spec_float.

Definition prec : Z := 53.
Definition emax : Z := 1024.

Definition NaN : number := S754_nan.
Definition zero : number := S754_zero false.

(** The binary64 value nearest to [d * 10^q] (ties to even), negated
    when [neg]; [d >= 0].  Exponents far outside the binary64 range are
    settled without computing the power of ten. *)
Definition of_decimal (neg : bool) (d q : Z) : number :=
  if d <=? 0 then S754_zero neg
  else if 400 <? q then S754_infinity neg
  else if Z.of_nat (ndigits d) + q <? -400 then S754_zero neg
  else if 0 <=? q then binary_round prec emax neg (Z.to_pos (d * 10 ^ q)) 0
  else
    let '(m, e, l) := SFdiv_core_binary prec emax d 0 (10 ^ (- q)) 0 in
    binary_round_aux prec emax neg m e l.

Definition of_Z (n : Z) : number := of_decimal (n <? 0) (Z.abs n) 0.

(** [x] as the fraction [num / den] for a finite non-zero magnitude
    [m * 2^e]. *)
Definition num_of (m : positive) (e : Z) : Z := Z.pos m * 2 ^ Z.max e 0.
Definition den_of (e : Z) : Z := 2 ^ Z.max (- e) 0.

(** *** Number::toString (radix 10) *)

(** Least [j >= 1] with [num * 10^j >= den], for [0 < num < den]. *)
Fixpoint lead_exp (fuel : nat) (num den : Z) (j : Z) : Z :=
  match fuel with
  | O => j
  | S f => if den <=? num * 10 then j else lead_exp f (num * 10) den (j + 1)
  end.

(** The [n0] with [10^(n0-1) <= num/den < 10^n0]. *)
Definition decimal_exponent (num den : Z) : Z :=
  if den <=? num then Z.of_nat (ndigits (num / den))
  else 1 - lead_exp 400 num den 1.

(** [floor (num/den * 10^p)] and whether the fractional part left over
    is below, at or above one half. *)
Definition scaled (num den p : Z) : Z * comparison :=
  let a := if 0 <=? p then num * 10 ^ p else num in
  let b := if 0 <=? p then den else den * 10 ^ (- p) in
  (a / b, (2 * (a mod b)) ?= b).

Definition same_number (x y : number) : bool :=
  match x, y with
  | S754_finite sx mx ex, S754_finite sy my ey =>
      Bool.eqb sx sy && (mx =? my)%positive && (ex =? ey)
  | _, _ => false
  end.

(** Searches the least [k] (from [k] upwards, [fuel] tries) for which a
    [k]-digit decimal [s * 10^(n0-k)] reads back as [x]; returns
    [(s, k, n)] as in the definition of Number::toString. *)
Fixpoint shortest (fuel : nat) (x : number) (num den n0 : Z) (k : nat) : Z * nat * Z :=
  let '(lo, half) := scaled num den (Z.of_nat k - n0) in
  let hi := lo + 1 in
  let ok_lo := same_number (of_decimal false lo (n0 - Z.of_nat k)) x in
  let ok_hi := same_number (of_decimal false hi (n0 - Z.of_nat k)) x in
  let pick_hi :=
    match half with
    | Lt => negb ok_lo
    | Eq => if ok_lo then negb (Z.even lo) else true
    | Gt => ok_hi
    end in
  let result :=
    if pick_hi && ok_hi then
      if hi =? 10 ^ Z.of_nat k then (1, 1%nat, n0 + 1) else (hi, k, n0)
    else (lo, k, n0) in
  match fuel with
  | O => result
  | S f => if ok_lo || ok_hi then result else shortest f x num den n0 (S k)
  end.

Definition exponent_part (n : Z) : string :=
  String "e" (String (if 0 <=? n - 1 then "+"%char else "-"%char) (Digits.of_Z (Z.abs (n - 1)))).

Definition format_shortest (s : Z) (k : nat) (n : Z) : string :=
  let kz := Z.of_nat k in
  if (kz <=? n) && (n <=? 21) then
    fixed_digits k s +:+ zeros (Z.to_nat (n - kz))
  else if (0 <? n) && (n <=? 21) then
    fixed_digits (Z.to_nat n) (s / 10 ^ (kz - n)) +:+ "." +:+
    fixed_digits (Z.to_nat (kz - n)) (s mod 10 ^ (kz - n))
  else if (-6 <? n) && (n <=? 0) then
    "0." +:+ zeros (Z.to_nat (- n)) +:+ fixed_digits k s
  else if (k =? 1)%nat then
    fixed_digits 1 s +:+ exponent_part n
  else
    fixed_digits 1 (s / 10 ^ (kz - 1)) +:+ "." +:+
    fixed_digits (k - 1) (s mod 10 ^ (kz - 1)) +:+ exponent_part n.

Definition magnitude_to_string (m : positive) (e : Z) : string :=
  let x := binary_round prec emax false m e in
  let num := num_of m e in
  let den := den_of e in
  let '(s, k, n) := shortest 16 x num den (decimal_exponent num den) 1 in
  format_shortest s k n.

Definition to_string (x : number) : string :=
  match x with
  | S754_nan => "NaN"
  | S754_zero _ => "0"
  | S754_infinity s => if s then "-Infinity" else "Infinity"
  | S754_finite s m e =>
      (if s then "-" else EmptyString) +:+ magnitude_to_string m e
  end.

(** *** Number.prototype.toFixed *)

(** The integer [n] nearest to [num/den * 10^f], the larger one on a tie. *)
Definition round_scaled (num den : Z) (f : nat) : Z :=
  (2 * num * 10 ^ Z.of_nat f + den) / (2 * den).

Definition fixed_point (n : Z) (f : nat) : string :=
  let p := 10 ^ Z.of_nat f in
  match f with
  | O => Digits.of_Z n
  | S _ => Digits.of_Z (n / p) +:+ "." +:+ fixed_digits f (n mod p)
  end.

Definition toFixed (x : number) (f : nat) : string :=
  match x with
  | S754_finite s m e =>
      let num := num_of m e in
      let den := den_of e in
      (if s then "-" else EmptyString) +:+
      (if 10 ^ 21 * den <=? num then magnitude_to_string m e
       else fixed_point (round_scaled num den f) f)
  | S754_zero _ => fixed_point 0 f
  | _ => to_string x
  end.

(** *** parseFloat on a string *)

(** WhiteSpace and LineTerminator code points, in their UTF-8 encoding:
    one byte (TAB, LF, VT, FF, CR, SP), two (U+00A0) or three (U+1680,
    U+2000 to U+200A, U+2028, U+2029, U+202F, U+205F, U+3000, U+FEFF). *)
Definition is_ws (c : ascii) : bool :=
  let n := nat_of_ascii c in
  ((n =? 9) || (n =? 10) || (n =? 11) || (n =? 12) || (n =? 13) || (n =? 32))%nat.

Definition is_ws2 (c1 c2 : ascii) : bool :=
  ((nat_of_ascii c1 =? 194) && (nat_of_ascii c2 =? 160))%nat.

Definition is_ws3 (c1 c2 c3 : ascii) : bool :=
  let a := nat_of_ascii c1 in
  let b := nat_of_ascii c2 in
  let c := nat_of_ascii c3 in
  (((a =? 225) && (b =? 154) && (c =? 128)) ||
   ((a =? 226) && (b =? 128) &&
    (((128 <=? c) && (c <=? 138)) || (c =? 168) || (c =? 169) || (c =? 175))) ||
   ((a =? 226) && (b =? 129) && (c =? 159)) ||
   ((a =? 227) && (b =? 128) && (c =? 128)) ||
   ((a =? 239) && (b =? 187) && (c =? 191)))%nat.

Fixpoint trim_start (s : string) : string :=
  match s with
  | String c1 r1 =>
      if is_ws c1 then trim_start r1
      else
        match r1 with
        | String c2 r2 =>
            if is_ws2 c1 c2 then trim_start r2
            else
              match r2 with
              | String c3 r3 => if is_ws3 c1 c2 c3 then trim_start r3 else s
              | EmptyString => s
              end
        | EmptyString => s
        end
  | EmptyString => s
  end.

Definition take_sign (s : string) : bool * string :=
  match s with
  | String "-" r => (true, r)
  | String "+" r => (false, r)
  | _ => (false, s)
  end.

Definition exponent_of (s : string) : Z :=
  match s with
  | String c r =>
      if (c =? "e")%char || (c =? "E")%char then
        let '(eneg, r1) := take_sign r in
        let '(ev, ne, _) := scan_digits r1 0 0 in
        if (ne =? 0)%nat then 0 else if eneg then - ev else ev
      else 0
  | EmptyString => 0
  end.

(** The value of the longest prefix of the trimmed string that is a
    StrDecimalLiteral, NaN when there is none. *)
Definition parse (s : string) : number :=
  let '(neg, s1) := take_sign (trim_start s) in
  if String.prefix "Infinity" s1 then S754_infinity neg
  else
    let '(ip, ni, s2) := scan_digits s1 0 0 in
    let '(mant, nf, s3) :=
      match s2 with
      | String "." r => scan_digits r ip 0
      | _ => (ip, 0%nat, s2)
      end in
    if (ni =? 0)%nat && (nf =? 0)%nat then NaN
    else of_decimal neg mant (exponent_of s3 - Z.of_nat nf).

(** ToBoolean on a number: zero and NaN are falsy. *)
Definition truthy (x : number) : bool :=
  match x with
  | S754_zero _ | S754_nan => false
  | _ => true
  end.

End Num.

(** ** Fixed-point notation *)

Module Shape.
Import Digits.

Fixpoint all_digits (s : string) : bool :=
  match s with
  | EmptyString => true
  | String c r => is_digit c && all_digits r
  end.

(** Digits, at least one unless [seen], then a point, then exactly [k]
    digits. *)
Fixpoint int_frac (k : nat) (s : string) (seen : bool) : bool :=
  match s with
  | EmptyString => false
  | String c r =>
      if (c =? ".")%char then seen && all_digits r && (String.length r =? k)%nat
      else is_digit c && int_frac k r true
  end.

Definition strip_minus (s : string) : string :=
  match s with
  | String c r => if (c =? "-")%char then r else s
  | EmptyString => s
  end.

(** [s] is a decimal numeral with exactly [k] digits after the point. *)
Definition has_decimals (k : nat) (s : string) : bool := int_frac k (strip_minus s) false.

(** [x] is finite and below [10^21] in magnitude: the range in which
    [toFixed] writes fixed-point notation. *)
Definition fixed_range (x : Num.number) : bool :=
  match x with
  | S754_zero _ => true
  | S754_finite _ m e => negb (10 ^ 21 * Num.den_of e <=? Num.num_of m e)
  | _ => false
  end.

End Shape.

(** ** Values, exceptions and conversions *)

#[local] Set Warnings "-register-all".

(** What [response.json()] hands to the renderer, and what reading a
    property of it can give. An object keeps its own properties in a map
    from names to values. *)
Inductive value : Type :=
| VUndefined
| VNull
| VBool (b : bool)
| VNum (x : Num.number)
| VStr (s : string)
| VArr (elems : list value)
| VObj (props : gmap string value).

(** Every exception the embedded code can raise is a TypeError. *)
Inductive exn : Type := TypeError.

Inductive result (A : Type) : Type :=
| Ok (a : A)
| Throw (e : exn).
Arguments Ok {A} a.
Arguments Throw {A} e.

Definition rbind {A B : Type} (r : result A) (k : A -> result B) : result B :=
  match r with
  | Ok a => k a
  | Throw e => Throw e
  end.

Declare Scope result_scope.
Delimit Scope result_scope with res.
Notation "'let?' x ':=' r 'in' k" := (rbind r (fun x => k))
  (at level 10, x name, r at level 100, k at level 200) : result_scope.

Definition dq : string := String (ascii_of_nat 34) EmptyString.
Definition nl : string := String (ascii_of_nat 10) EmptyString.

Fixpoint spaces (k : nat) : string :=
  match k with
  | O => EmptyString
  | S k' => String " " (spaces k')
  end.

Definition is_undefined (v : value) : bool :=
  match v with VUndefined => true | _ => false end.

Definition is_nullish (v : value) : bool :=
  match v with VUndefined | VNull => true | _ => false end.

(** [a ?? b]. Every right operand in the embedded code is a literal or a
    property read that cannot throw where it stands, so it is passed
    evaluated. *)
Definition coalesce (a b : value) : value := if is_nullish a then b else a.

Definition has_own (props : gmap string value) (k : string) : bool :=
  match props !! k with Some _ => true | None => false end.

(** [v.k] for a name [k] that no builtin prototype defines, which is the
    case of every name the renderer reads ([detail], [Rank], [Date],
    [Open], [High], [Low], [Close], [Volume], [Similarity], [Variance]). *)
Definition get (v : value) (k : string) : result value :=
  match v with
  | VUndefined | VNull => Throw TypeError
  | VObj props => Ok (default VUndefined (props !! k))
  | _ => Ok VUndefined
  end.

Definition ToBoolean (v : value) : bool :=
  match v with
  | VUndefined | VNull => false
  | VBool b => b
  | VNum x => Num.truthy x
  | VStr s => negb (String.eqb s EmptyString)
  | VArr _ | VObj _ => true
  end.

Definition isArray (v : value) : bool :=
  match v with VArr _ => true | _ => false end.

(** Joining the converted elements of an array with commas; [conv] is the
    conversion of one element that is neither undefined nor null. *)
Definition join_item (conv : value -> result string) (v : value) : result string :=
  if is_nullish v then Ok EmptyString else conv v.

(** ToString. An object of parsed JSON has no callable own property: its
    conversion goes through Object.prototype.toString unless an own
    [toString] property shadows it, in which case OrdinaryToPrimitive
    finds no primitive and throws. An array converts by
    Array.prototype.join. *)
Fixpoint ToString (v : value) : result string :=
  match v with
  | VUndefined => Ok "undefined"
  | VNull => Ok "null"
  | VBool b => Ok (if b then "true" else "false")
  | VNum x => Ok (Num.to_string x)
  | VStr s => Ok s
  | VArr elems =>
      (fix join (l : list value) : result string :=
         match l with
         | [] => Ok EmptyString
         | x :: r =>
             let? s := join_item ToString x in
             match r with
             | [] => Ok s
             | _ :: _ => let? t := join r in Ok (s +:+ "," +:+ t)
             end
         end%res) elems
  | VObj props =>
      if has_own props "toString" then Throw TypeError else Ok "[object Object]"
  end.

(** [parseFloat(v)]: ToString, then the decimal prefix. *)
Definition parseFloat (v : value) : result Num.number :=
  (let? s := ToString v in Ok (Num.parse s))%res.

(** [v.toFixed(d)]: only a number has the method. *)
Definition call_toFixed (v : value) (d : nat) : result string :=
  match v with
  | VNum x => Ok (Num.toFixed x d)
  | _ => Throw TypeError
  end.

(** An en-US rendering of Number.prototype.toLocaleString: the
    shortest decimal that reads back as the number, rounded to at most
    three fraction digits (a half goes away from zero), thousands
    grouped by commas. It instantiates the host formatter in closed
    examples. *)
Module EnUS.

Fixpoint strip_zeros (k : nat) (frac : Z) : string :=
  match k with
  | O => EmptyString
  | S k' =>
      if frac mod 10 =? 0 then strip_zeros k' (frac / 10)
      else Digits.fixed_digits k frac
  end.

Fixpoint group (fuel : nat) (n : Z) : string :=
  match fuel with
  | O => Digits.of_Z n
  | S f =>
      if n <? 1000 then Digits.of_Z n
      else group f (n / 1000) +:+ "," +:+ Digits.fixed_digits 3 (n mod 1000)
  end.

(** The thousandths of the decimal [s * 10^(n-k)], the nearest integer
    and the larger one on a tie. *)
Definition thousandths (s : Z) (k : nat) (n : Z) : Z :=
  let q := n - Z.of_nat k + 3 in
  if 0 <=? q then s * 10 ^ q
  else (2 * s + 10 ^ (- q)) / (2 * 10 ^ (- q)).

Definition format (x : Num.number) : string :=
  match x with
  | S754_nan => "NaN"
  | S754_infinity s => if s then "-∞" else "∞"
  | S754_zero s => if s then "-0" else "0"
  | S754_finite sg m e =>
      let y := binary_round Num.prec Num.emax false m e in
      let num := Num.num_of m e in
      let den := Num.den_of e in
      let '(s, k, n) := Num.shortest 16 y num den (Num.decimal_exponent num den) 1 in
      let t := thousandths s k n in
      let frac := strip_zeros 3 (t mod 1000) in
      (if sg then "-" else EmptyString) +:+
      group (Z.to_nat (Z.log2 t)) (t / 1000) +:+
      (if String.eqb frac EmptyString then EmptyString else "." +:+ frac)
  end.

End EnUS.

(** ** The page: results container, chart container, Chart.js instances *)

(** A [div] built by [document.createElement] and filled through
    [className] and [innerHTML]. *)
Record Element : Type := { className : string; innerHTML : string }.

Record Dataset : Type := {
  ds_label : string;
  ds_data : list value;
  backgroundColor : string;
  borderColor : string;
  borderWidth : Z
}.

(** The configuration object passed to [new Chart]; of the constant
    [options] literal only the title text is kept. *)
Record ChartConfig : Type := {
  chart_type : string;
  chart_labels : list string;
  chart_datasets : list Dataset;
  chart_title : string
}.

(** The state the two functions read and write.
    - [results_markup], [results_cards]: the content of [resultsContainer],
      as the markup last assigned to its [innerHTML] followed by the
      elements appended since;
    - [chart_display]: [chartContainer.style.display];
    - [resultsChart]: the variable of that name, [None] for [null],
      otherwise a reference to a Chart instance;
    - [live_charts]: the Chart instances constructed and not yet destroyed,
      by reference;
    - [next_ref]: the next fresh reference. *)
Record State : Type := {
  results_markup : string;
  results_cards : list Element;
  chart_display : string;
  resultsChart : option nat;
  live_charts : list (nat * ChartConfig);
  next_ref : nat
}.

(** The page as loaded, whatever its markup and style sheet give the two
    containers: no card appended, [let resultsChart = null], no Chart
    instance. *)
Definition initial (markup display : string) : State :=
  {| results_markup := markup; results_cards := [];
     chart_display := display; resultsChart := None;
     live_charts := []; next_ref := O |}.

(** Computations that read and write the page and may throw; the state
    reached when an exception is raised is kept, as the DOM keeps it. *)
Definition M (A : Type) : Type := State -> result A * State.

Definition ret {A : Type} (a : A) : M A := fun st => (Ok a, st).

Definition bind {A B : Type} (m : M A) (k : A -> M B) : M B :=
  fun st =>
    match m st with
    | (Ok a, st') => k a st'
    | (Throw e, st') => (Throw e, st')
    end.

Definition lift {A : Type} (r : result A) : M A := fun st => (r, st).

Definition modify (f : State -> State) : M unit := fun st => (Ok tt, f st).

Declare Scope page_scope.
Delimit Scope page_scope with page.
Notation "x <- m ;; k" := (bind m (fun x => k))
  (at level 100, m at next level, right associativity) : page_scope.
Notation "m ;; k" := (bind m (fun _ => k))
  (at level 100, right associativity) : page_scope.

(** [resultsContainer.innerHTML = s]: the new markup replaces every child. *)
Definition set_results_markup (s : string) (st : State) : State :=
  {| results_markup := s; results_cards := [];
     chart_display := chart_display st; resultsChart := resultsChart st;
     live_charts := live_charts st; next_ref := next_ref st |}.

(** [resultsContainer.appendChild(card)]. *)
Definition appendChild (card : Element) (st : State) : State :=
  {| results_markup := results_markup st;
     results_cards := results_cards st ++ [card];
     chart_display := chart_display st; resultsChart := resultsChart st;
     live_charts := live_charts st; next_ref := next_ref st |}.

(** [chartContainer.style.display = d]. *)
Definition set_chart_display (d : string) (st : State) : State :=
  {| results_markup := results_markup st; results_cards := results_cards st;
     chart_display := d; resultsChart := resultsChart st;
     live_charts := live_charts st; next_ref := next_ref st |}.

(** [resultsChart.destroy(); resultsChart = null] for the instance [r]. *)
Definition destroy_chart (r : nat) (st : State) : State :=
  {| results_markup := results_markup st; results_cards := results_cards st;
     chart_display := chart_display st; resultsChart := None;
     live_charts := List.filter (fun c => negb (Nat.eqb (fst c) r)) (live_charts st);
     next_ref := next_ref st |}.

(** [resultsChart = new Chart(ctx, cfg)]. *)
Definition new_chart (cfg : ChartConfig) (st : State) : State :=
  {| results_markup := results_markup st; results_cards := results_cards st;
     chart_display := chart_display st; resultsChart := Some (next_ref st);
     live_charts := live_charts st ++ [(next_ref st, cfg)];
     next_ref := S (next_ref st) |}.

(** [clearResults], lines 41-48. *)
Definition clearResults : M unit :=
  (modify (set_results_markup EmptyString) ;;
   modify (set_chart_display "none") ;;
   fun st =>
     match resultsChart st with
     | Some r => modify (destroy_chart r) st
     | None => ret tt st
     end)%page.

Section Renderer.

(** Number.prototype.toLocaleString of the host, with no argument: the
    format depends on the locale of the browser. *)
Variable numberToLocaleString : Num.number -> string.

(** [v.toLocaleString()] for [v] neither undefined nor null. Strings
    and booleans inherit Object.prototype.toLocaleString, which calls
    [toString]; so does an object, unless an own property (never
    callable in parsed JSON) shadows either method; an array joins the
    [toLocaleString] of its elements. *)
Fixpoint call_toLocaleString (v : value) : result string :=
  match v with
  | VUndefined | VNull => Throw TypeError
  | VBool b => Ok (if b then "true" else "false")
  | VNum x => Ok (numberToLocaleString x)
  | VStr s => Ok s
  | VArr elems =>
      (fix join (l : list value) : result string :=
         match l with
         | [] => Ok EmptyString
         | x :: r =>
             let? s := join_item call_toLocaleString x in
             match r with
             | [] => Ok s
             | _ :: _ => let? t := join r in Ok (s +:+ "," +:+ t)
             end
         end%res) elems
  | VObj props =>
      if has_own props "toLocaleString" then Throw TypeError
      else if has_own props "toString" then Throw TypeError
      else Ok "[object Object]"
  end.

(** [v?.toLocaleString()]. *)
Definition opt_toLocaleString (v : value) : result value :=
  if is_nullish v then Ok VUndefined
  else (let? s := call_toLocaleString v in Ok (VStr s))%res.

(** The constants of the loop body, lines 104-114. *)
Record Derived : Type := {
  d_rank : value;
  d_date : value;
  d_open : value;
  d_high : value;
  d_low : value;
  d_close : value;
  d_volume : value;
  d_scoreType : string;
  d_score : string
}.

(** [parseFloat(v) ?? 0]. *)
Definition price (v : value) : result value :=
  (let? x := parseFloat v in Ok (coalesce (VNum x) (VNum Num.zero)))%res.

Definition derive (item : value) : result Derived :=
  (let? rank0 := get item "Rank" in
   let rank := coalesce rank0 (VStr "N/A") in
   let? date0 := get item "Date" in
   let date := coalesce date0 (VStr "N/A") in
   let? o := get item "Open" in
   let? open := price o in
   let? h := get item "High" in
   let? high := price h in
   let? l := get item "Low" in
   let? low := price l in
   let? c := get item "Close" in
   let? close := price c in
   let? vol0 := get item "Volume" in
   let? vol1 := opt_toLocaleString vol0 in
   let volume := coalesce vol1 (VStr "N/A") in
   let? sim := get item "Similarity" in
   let scoreType := if negb (is_undefined sim) then "Similarity" else "Variance" in
   let? var := get item "Variance" in
   let scoreValue := coalesce sim var in
   let? score :=
     if negb (is_undefined scoreValue) then
       let? x := parseFloat scoreValue in call_toFixed (VNum x) 4
     else Ok "N/A" in
   Ok {| d_rank := rank; d_date := date; d_open := open; d_high := high;
         d_low := low; d_close := close; d_volume := volume;
         d_scoreType := scoreType; d_score := score |})%res.

(** The text put in each hole of the card template, in the order
    the template literal evaluates them. *)
Record CardView : Type := {
  cv_date : string;
  cv_rank : string;
  cv_open : string;
  cv_high : string;
  cv_low : string;
  cv_close : string;
  cv_volume : string;
  cv_scoreType : string;
  cv_score : string
}.

Definition card_view (d : Derived) : result CardView :=
  (let? date := ToString (d_date d) in
   let? rank := ToString (d_rank d) in
   let? open := call_toFixed (d_open d) 2 in
   let? high := call_toFixed (d_high d) 2 in
   let? low := call_toFixed (d_low d) 2 in
   let? close := call_toFixed (d_close d) 2 in
   let? volume := ToString (d_volume d) in
   Ok {| cv_date := date; cv_rank := rank; cv_open := open; cv_high := high;
         cv_low := low; cv_close := close; cv_volume := volume;
         cv_scoreType := d_scoreType d; cv_score := d_score d |})%res.

Definition cls (c : string) : string := " class=" +:+ dq +:+ c +:+ dq.

Definition line (indent : nat) (s : string) : string := nl +:+ spaces indent +:+ s.

(** The template literal of lines 116-131. *)
Definition card_markup (c : CardView) : string :=
  line 16 ("<div" +:+ cls "result-card-header" +:+ ">") +:+
  line 20 ("<h3>" +:+ cv_date c +:+ "</h3>") +:+
  line 20 ("<span" +:+ cls "rank-badge" +:+ ">Rank " +:+ cv_rank c +:+ "</span>") +:+
  line 16 "</div>" +:+
  line 16 ("<div" +:+ cls "result-card-body" +:+ ">") +:+
  line 20 ("<div" +:+ cls "metric" +:+ ">Open<strong>" +:+ cv_open c +:+ "</strong></div>") +:+
  line 20 ("<div" +:+ cls "metric high" +:+ ">High<strong" +:+ cls "high" +:+ ">" +:+
           cv_high c +:+ "</strong></div>") +:+
  line 20 ("<div" +:+ cls "metric low" +:+ ">Low<strong" +:+ cls "low" +:+ ">" +:+
           cv_low c +:+ "</strong></div>") +:+
  line 20 ("<div" +:+ cls "metric" +:+ ">Close<strong>" +:+ cv_close c +:+ "</strong></div>") +:+
  line 20 ("<div" +:+ cls "metric" +:+ ">Volume<strong>" +:+ cv_volume c +:+ "</strong></div>") +:+
  line 16 "</div>" +:+
  line 16 ("<div" +:+ cls "result-card-footer" +:+ ">") +:+
  line 20 ("<div" +:+ cls "score" +:+ "><span>" +:+ cv_scoreType c +:+ ":</span> " +:+
           cv_score c +:+ "</div>") +:+
  line 16 "</div>" +:+
  line 12 EmptyString.

Definition make_card (c : CardView) : Element :=
  {| className := "result-card"; innerHTML := card_markup c |}.

(** [chartLabels] and [chartData], lines 91-97. *)
Record Series : Type := {
  chartLabels : list string;
  chartData_open : list value;
  chartData_high : list value;
  chartData_low : list value;
  chartData_close : list value
}.

Definition no_series : Series :=
  {| chartLabels := []; chartData_open := []; chartData_high := []; chartData_low := []; chartData_close := [] |}.

(** The template literal of line 136. *)
Definition chart_label (d : Derived) : result string :=
  (let? rank := ToString (d_rank d) in
   let? date := ToString (d_date d) in
   Ok ("Rank " +:+ rank +:+ " (" +:+ date +:+ ")"))%res.

(** The five [push] calls of lines 136-140. *)
Definition push_row (label : string) (d : Derived) (acc : Series) : Series :=
  {| chartLabels := chartLabels acc ++ [label];
     chartData_open := chartData_open acc ++ [d_open d];
     chartData_high := chartData_high acc ++ [d_high d];
     chartData_low := chartData_low acc ++ [d_low d];
     chartData_close := chartData_close acc ++ [d_close d] |}.

(** The callback of [data.forEach], lines 100-142. *)
Definition each_item (item : value) (acc : Series) : M Series :=
  (d <- lift (derive item) ;;
   c <- lift (card_view d) ;;
   modify (appendChild (make_card c)) ;;
   o <- lift (get item "Open") ;;
   if negb (is_undefined o) then
     label <- lift (chart_label d) ;;
     ret (push_row label d acc)
   else ret acc)%page.

Fixpoint forEach (items : list value) (acc : Series) : M Series :=
  match items with
  | [] => ret acc
  | item :: rest => (acc' <- each_item item acc ;; forEach rest acc')%page
  end.

Definition dataset (label : string) (data : list value) (bg border : string) : Dataset :=
  {| ds_label := label; ds_data := data; backgroundColor := bg;
     borderColor := border; borderWidth := 1 |}.

(** The configuration literal of lines 148-206. *)
Definition chart_config (s : Series) : ChartConfig :=
  {| chart_type := "bar";
     chart_labels := chartLabels s;
     chart_datasets :=
       [ dataset "Open" (chartData_open s) "rgba(54, 162, 235, 0.6)" "rgba(54, 162, 235, 1)";
         dataset "High" (chartData_high s) "rgba(75, 192, 192, 0.6)" "rgba(75, 192, 192, 1)";
         dataset "Low" (chartData_low s) "rgba(255, 99, 132, 0.6)" "rgba(255, 99, 132, 1)";
         dataset "Close" (chartData_close s) "rgba(153, 102, 255, 0.6)" "rgba(153, 102, 255, 1)" ];
     chart_title := "Similar Pattern OHLC Comparison" |}.

Definition error_markup (detail : string) : string :=
  "<div" +:+ cls "error-message" +:+ ">" +:+ detail +:+ "</div>".

Definition no_results_markup : string := "<p>No results found.</p>".

(** [displayResults], lines 77-208. *)
Definition displayResults (data : value) : M unit :=
  (clearResults ;;
   detail <- lift (get data "detail") ;;
   if ToBoolean detail then
     text <- lift (ToString detail) ;;
     modify (set_results_markup (error_markup text))
   else
     match data with
     | VArr items =>
         if (length items =? 0)%nat then
           modify (set_results_markup no_results_markup)
         else
           series <- forEach items no_series ;;
           if (0 <? length (chartLabels series))%nat then
             modify (set_chart_display "block") ;;
             modify (new_chart (chart_config series))
           else ret tt
     | _ => modify (set_results_markup no_results_markup)
     end)%page.

(** *** Notions in which the properties are stated *)

(** The own property [k] of an object, undefined for anything else. *)
Definition field (v : value) (k : string) : value :=
  match v with
  | VObj props => default VUndefined (props !! k)
  | _ => VUndefined
  end.

(** [item.Open !== undefined]. *)
Definition has_open (item : value) : bool := negb (is_undefined (field item "Open")).

(** The values [ToString] converts without an exception: an object must
    have no own [toString] property, and in an array this holds of every
    element that is neither undefined nor null. *)
Fixpoint stringable (v : value) : bool :=
  match v with
  | VArr elems => forallb (fun x => is_nullish x || stringable x) elems
  | VObj props => negb (has_own props "toString")
  | _ => true
  end.

(** The values [v?.toLocaleString()] converts without an exception: an
    object must have no own [toLocaleString] or [toString] property, in
    an array every element that is neither undefined nor null. *)
Fixpoint localizable (v : value) : bool :=
  match v with
  | VArr elems => forallb (fun x => is_nullish x || localizable x) elems
  | VObj props => negb (has_own props "toLocaleString") && negb (has_own props "toString")
  | _ => true
  end.

(** The entries on which no conversion of the loop body can raise: not
    undefined or null, with [Rank], [Date] and the four prices
    convertible to a string, [Volume] convertible by [toLocaleString],
    and the score it selects ([Similarity], or [Variance] when
    [Similarity] is undefined or null) convertible to a string. That
    the loop body renders these entries and no other is
    [each_item_renderable] and [each_item_unrenderable]. *)
Definition renderable_entry (item : value) : bool :=
  negb (is_nullish item) &&
  forallb (fun k => stringable (field item k))
          ["Rank"; "Date"; "Open"; "High"; "Low"; "Close"] &&
  localizable (field item "Volume") &&
  stringable (coalesce (field item "Similarity") (field item "Variance")).


(** *** What a card is to show, field by field *)

(** The definitions from here to [entry_bar] are not taken from the
    loop body: they say, one field at a time, which text a card and
    which label and bar a chart are to show for an entry. The lemmas
    [card_view_entry_texts], [card_markup_parts] and
    [each_item_renderable] compare them with what the loop body
    computes. *)

(** A field that may be missing: the marker when it is undefined or
    null, its text otherwise. *)
Definition text_or_marker (v : value) : result string :=
  if is_nullish v then Ok "N/A" else ToString v.

(** A price: the field parsed as a floating-point number, written with
    two decimals. *)
Definition price_text (v : value) : result string :=
  (let? x := parseFloat v in Ok (Num.toFixed x 2))%res.

(** The volume: the marker when it is undefined or null, otherwise the
    field in the format of the host's locale. *)
Definition volume_text (v : value) : result string :=
  if is_nullish v then Ok "N/A" else call_toLocaleString v.

Definition score_label (item : value) : string :=
  if is_undefined (field item "Similarity") then "Variance" else "Similarity".

(** The score: [Similarity], or [Variance] when [Similarity] is
    undefined or null, parsed and written with four decimals; the
    marker when that is undefined. *)
Definition score_text (item : value) : result string :=
  let v := coalesce (field item "Similarity") (field item "Variance") in
  if is_undefined v then Ok "N/A"
  else (let? x := parseFloat v in Ok (Num.toFixed x 4))%res.

Definition entry_texts (item : value) : result CardView :=
  (let? date := text_or_marker (field item "Date") in
   let? rank := text_or_marker (field item "Rank") in
   let? open := price_text (field item "Open") in
   let? high := price_text (field item "High") in
   let? low := price_text (field item "Low") in
   let? close := price_text (field item "Close") in
   let? volume := volume_text (field item "Volume") in
   let? score := score_text item in
   Ok {| cv_date := date; cv_rank := rank; cv_open := open; cv_high := high;
         cv_low := low; cv_close := close; cv_volume := volume;
         cv_scoreType := score_label item; cv_score := score |})%res.

(** [drop_prefix p s]: what follows [p] in [s], when [s] starts with [p]. *)
Fixpoint drop_prefix (p s : string) : option string :=
  match p, s with
  | EmptyString, _ => Some s
  | String a p', String b s' => if (a =? b)%char then drop_prefix p' s' else None
  | String _ _, EmptyString => None
  end.

(** [after_first p s]: what follows the first occurrence of [p] in [s]. *)
Fixpoint after_first (p s : string) : option string :=
  match drop_prefix p s with
  | Some rest => Some rest
  | None =>
      match s with
      | String _ s' => after_first p s'
      | EmptyString => None
      end
  end.

(** [s] holds the [parts] one after the other, in this order, whatever
    stands before, between and after them. *)
Fixpoint holds_in_order (parts : list string) (s : string) : bool :=
  match parts with
  | [] => true
  | p :: rest =>
      match after_first p s with
      | Some s' => holds_in_order rest s'
      | None => false
      end
  end.

(** The parts of a result card: the date as heading, the rank badge,
    the four price metrics, the volume metric, the score line. *)
Definition card_parts (t : CardView) : list string :=
  [ "<h3>" +:+ cv_date t +:+ "</h3>";
    ">Rank " +:+ cv_rank t +:+ "</span>";
    ">Open<strong>" +:+ cv_open t +:+ "</strong>";
    ">High<strong";
    ">" +:+ cv_high t +:+ "</strong>";
    ">Low<strong";
    ">" +:+ cv_low t +:+ "</strong>";
    ">Close<strong>" +:+ cv_close t +:+ "</strong>";
    ">Volume<strong>" +:+ cv_volume t +:+ "</strong>";
    "<span>" +:+ cv_scoreType t +:+ ":</span> " +:+ cv_score t +:+ "</div>" ].

(** [card] is a result card showing the texts [t]: an element of class
    result-card whose markup is the card template around [t] and holds
    the parts of [t] in their order. *)
Definition card_shows (t : CardView) (card : Element) : Prop :=
  className card = "result-card" /\
  innerHTML card = card_markup t /\
  holds_in_order (card_parts t) (innerHTML card) = true.

(** [card] is the result card of the entry [item]. *)
Definition card_for (item : value) (card : Element) : Prop :=
  exists t, entry_texts item = Ok t /\ card_shows t card.


(** The label of the bar group of an entry: Rank, the rank, and the
    date in parentheses. *)
Definition entry_label (item : value) : result string :=
  (let? rank := text_or_marker (field item "Rank") in
   let? date := text_or_marker (field item "Date") in
   Ok ("Rank " +:+ rank +:+ " (" +:+ date +:+ ")"))%res.

(** The bar of an entry in the dataset of the price field [k]: the
    field parsed as a floating-point number. *)
Definition entry_bar (k : string) (item : value) : result value :=
  (let? x := parseFloat (field item k) in Ok (VNum x))%res.

(** What the loop body pushes on the five chart arrays for [item]. *)
Record Row : Type := {
  r_label : string;
  r_open : value;
  r_high : value;
  r_low : value;
  r_close : value
}.

(** [row] is what an entry with [Open] defined adds to the chart. *)
Definition charted_row (item : value) (row : Row) : Prop :=
  entry_label item = Ok (r_label row) /\
  entry_bar "Open" item = Ok (r_open row) /\
  entry_bar "High" item = Ok (r_high row) /\
  entry_bar "Low" item = Ok (r_low row) /\
  entry_bar "Close" item = Ok (r_close row).

Definition series_of (rows : list Row) : Series :=
  {| chartLabels := map r_label rows; chartData_open := map r_open rows;
     chartData_high := map r_high rows; chartData_low := map r_low rows;
     chartData_close := map r_close rows |}.

(** The variable [resultsChart] and the live Chart instances agree: no
    instance is live when the variable is null, otherwise exactly the
    instance it refers to. *)
Definition chart_inv (st : State) : Prop :=
  match resultsChart st with
  | None => live_charts st = []
  | Some r => (r < next_ref st)%nat /\ exists cfg, live_charts st = [(r, cfg)]
  end.

(** What can be seen of a state: the content of the results container,
    the display of the chart container, whether a chart is held, and the
    configurations of the live Chart instances. References are left out. *)
Definition visible (st : State)
  : string * list Element * string * bool * list ChartConfig :=
  (results_markup st, results_cards st, chart_display st,
   match resultsChart st with Some _ => true | None => false end,
   map snd (live_charts st)).

(** What the page does to the renderer's state: a handler or a tab
    switch calls [clearResults], a handler calls [displayResults], whose
    exception it catches, and its [catch] block writes a message in the
    results container (lines 230-232, 253-255, 275-278). *)
Inductive op : Type :=
| Render (data : value)
| Clear
| Caught (message : string).

Definition step (st : State) (o : op) : State :=
  match o with
  | Render data => snd (displayResults data st)
  | Clear => snd (clearResults st)
  | Caught message =>
      set_results_markup (error_markup ("An error occurred: " +:+ message)) st
  end.

Definition run (ops : list op) (st : State) : State := fold_left step ops st.

(** [append_cards cs st]: [st] after [cs] were appended in turn. *)
Definition append_cards (cs : list Element) (st : State) : State :=
  {| results_markup := results_markup st;
     results_cards := results_cards st ++ cs;
     chart_display := chart_display st; resultsChart := resultsChart st;
     live_charts := live_charts st; next_ref := next_ref st |}.

(** The state [clearResults] leaves. *)
Definition cleared (st : State) : State :=
  {| results_markup := EmptyString; results_cards := [];
     chart_display := "none"; resultsChart := None;
     live_charts :=
       match resultsChart st with
       | Some r => List.filter (fun c => negb (Nat.eqb (fst c) r)) (live_charts st)
       | None => live_charts st
       end;
     next_ref := next_ref st |}.

(** The ways [displayResults] leaves a cleared page: untouched (an
    exception before anything was written), with a message as markup,
    with cards, or with cards and a chart. *)
Inductive paint : Type :=
| Untouched
| Message (markup : string)
| Cards (cs : list Element)
| CardsAndChart (cs : list Element) (cfg : ChartConfig).

Definition apply_paint (p : paint) (st : State) : State :=
  match p with
  | Untouched => st
  | Message markup => set_results_markup markup st
  | Cards cs => append_cards cs st
  | CardsAndChart cs cfg =>
      new_chart cfg (set_chart_display "block" (append_cards cs st))
  end.

(** [acc] after the rows were pushed in turn. *)
Definition extend (acc : Series) (rows : list Row) : Series :=
  {| chartLabels := chartLabels acc ++ map r_label rows;
     chartData_open := chartData_open acc ++ map r_open rows;
     chartData_high := chartData_high acc ++ map r_high rows;
     chartData_low := chartData_low acc ++ map r_low rows;
     chartData_close := chartData_close acc ++ map r_close rows |}.

(** A cleared page on which no chart is live. *)
Definition blank (n : nat) : State :=
  {| results_markup := EmptyString; results_cards := [];
     chart_display := "none"; resultsChart := None;
     live_charts := []; next_ref := n |}.

(** *** Sample payloads *)

Definition half : Num.number := Num.of_decimal false 5 (-1).

Definition item_variance_only : value :=
  VObj (<["Variance" := VNum half]> ∅).

Definition item_zero_similarity : value :=
  VObj (<["Similarity" := VNum (Num.of_Z 0)]> ∅).

Definition item_huge_similarity : value :=
  VObj (<["Similarity" := VNum (Num.of_decimal false 1 21)]> ∅).

Definition item_null_similarity : value :=
  VObj (<["Similarity" := VNull]> (<["Variance" := VNum half]> ∅)).

Definition item_both_scores : value :=
  VObj (<["Similarity" := VNum (Num.of_decimal false 25 (-2))]>
        (<["Variance" := VNum half]> ∅)).

Definition item_full : value :=
  VObj (<["Rank" := VNum (Num.of_Z 1)]> (<["Date" := VStr "2023-01-01"]>
       (<["Open" := VStr "150.25"]> (<["High" := VStr "155.50"]>
       (<["Low" := VStr "149.75"]> (<["Close" := VStr "152.00"]>
       (<["Volume" := VNum (Num.of_Z 1000000)]>
       (<["Similarity" := VNum (Num.of_decimal false 9731 (-4))]> ∅)))))))).

Definition payload_results : value := VArr [item_full; item_variance_only].






(** ** The rest of the script: spinner, tabs, date list, form handlers *)

(** *** The query string of a request *)

(** [URLSearchParams] serializes as application/x-www-form-urlencoded:
    ASCII letters and digits and [*-._] stay, a space becomes [+], every
    other byte of the UTF-8 text becomes [%XX] in upper-case hexadecimal;
    pairs are written [name=value] and joined by [&]. *)
Definition is_alnum (c : ascii) : bool :=
  let n := nat_of_ascii c in
  (((48 <=? n) && (n <=? 57)) || ((65 <=? n) && (n <=? 90)) ||
   ((97 <=? n) && (n <=? 122)))%nat.

Definition unreserved (c : ascii) : bool :=
  is_alnum c || (c =? "*")%char || (c =? "-")%char || (c =? ".")%char || (c =? "_")%char.

Definition hex_digit (n : nat) : ascii :=
  if (n <? 10)%nat then ascii_of_nat (48 + n) else ascii_of_nat (55 + n).

Definition encode_byte (c : ascii) : string :=
  if unreserved c then String c EmptyString
  else if (c =? " ")%char then "+"
  else String "%" (String (hex_digit (nat_of_ascii c / 16))
                  (String (hex_digit (nat_of_ascii c mod 16)) EmptyString)).

Fixpoint form_urlencode (s : string) : string :=
  match s with
  | EmptyString => EmptyString
  | String c r => encode_byte c +:+ form_urlencode r
  end.

Definition encode_pair (p : string * string) : string :=
  form_urlencode (fst p) +:+ "=" +:+ form_urlencode (snd p).

Fixpoint serialize (pairs : list (string * string)) : string :=
  match pairs with
  | [] => EmptyString
  | [p] => encode_pair p
  | p :: rest => encode_pair p +:+ "&" +:+ serialize rest
  end.

(** The parser of the same format, as the receiving end applies it: split
    at [&], drop empty pieces, cut each piece at its first [=], turn [+]
    into a space and [%XX] into the byte. *)
Definition hex_val (c : ascii) : option nat :=
  let n := nat_of_ascii c in
  if ((48 <=? n) && (n <=? 57))%nat then Some (n - 48)%nat
  else if ((65 <=? n) && (n <=? 70))%nat then Some (n - 55)%nat
  else if ((97 <=? n) && (n <=? 102))%nat then Some (n - 87)%nat
  else None.

Fixpoint form_urldecode (s : string) : string :=
  match s with
  | EmptyString => EmptyString
  | String c r =>
      if (c =? "+")%char then String " " (form_urldecode r)
      else if (c =? "%")%char then
        match r with
        | String h (String l r2) =>
            match hex_val h, hex_val l with
            | Some a, Some b => String (ascii_of_nat (16 * a + b)) (form_urldecode r2)
            | _, _ => String c (form_urldecode r)
            end
        | _ => String c (form_urldecode r)
        end
      else String c (form_urldecode r)
  end.

(** The pieces of [s] between occurrences of [sep]. *)
Fixpoint split_on (sep : ascii) (s : string) : list string :=
  match s with
  | EmptyString => [EmptyString]
  | String c r =>
      if (c =? sep)%char then EmptyString :: split_on sep r
      else
        match split_on sep r with
        | piece :: pieces => String c piece :: pieces
        | [] => [String c EmptyString]
        end
  end.

(** [s] before and after its first [sep]. *)
Fixpoint cut (sep : ascii) (s : string) : string * string :=
  match s with
  | EmptyString => (EmptyString, EmptyString)
  | String c r =>
      if (c =? sep)%char then (EmptyString, r)
      else let '(a, b) := cut sep r in (String c a, b)
  end.

Definition parse_piece (piece : string) : string * string :=
  let '(name, val) := cut "=" piece in (form_urldecode name, form_urldecode val).

Definition parse_query (q : string) : list (string * string) :=
  map parse_piece
      (List.filter (fun piece => negb (String.eqb piece EmptyString)) (split_on "&" q)).

(** *** The page *)

(** An exception as the handlers see it: they read [error.message]. *)
Record JsError : Type := { err_name : string; err_message : string }.

Inductive outcome (A : Type) : Type :=
| Returned (a : A)
| Raised (e : JsError).
#[global] Arguments Returned {A} a.
#[global] Arguments Raised {A} e.

(** An [option] element of the date list. *)
Record OptionEl : Type := { opt_value : string; opt_text : string }.

(** An element of the document, as far as the tab logic looks at it: its
    [id] (none when absent or empty), its [classList], its [data-tab]. *)
Record Elem : Type := {
  el_id : option string;
  el_classes : gset string;
  el_tab : option string
}.

(** A [fetch] that has not settled yet, with the handler awaiting it. *)
Inductive request : Type :=
| SearchRequest (url : string)
| DatesRequest (url : string).

(** How a [fetch] settles, as far as the handlers look: rejected, or a
    response with its [ok] flag whose body parses as JSON or makes
    [response.json()] reject. *)
Inductive Body : Type :=
| BadJson (e : JsError)
| Json (v : value).

Inductive Fetched : Type :=
| Rejected (e : JsError)
| Responded (ok : bool) (body : Body).

(** A call of [console.error]: the label, if one was passed, and the error. *)
Record LogEntry : Type := { log_label : option string; log_error : JsError }.

(** The page the script runs on.
    - [renderer]: results container, chart container and chart, as above;
    - [spinner_display]: [loadingSpinner.style.display];
    - [date_markup], [date_options]: the content of [dateSelect], as the
      markup last assigned to its [innerHTML] and the options appended
      since;
    - [elements]: the elements of the document, in tree order;
    - [tabs], [tabPanes]: the two node lists taken at load, as positions
      in [elements];
    - [pending]: the requests in flight;
    - [console]: what [console.error] was called with. *)
Record Page : Type := {
  renderer : State;
  spinner_display : string;
  date_markup : string;
  date_options : list OptionEl;
  elements : list Elem;
  tabs : list nat;
  tabPanes : list nat;
  pending : list request;
  console : list LogEntry
}.

Definition with_renderer (st : State) (pg : Page) : Page :=
  {| renderer := st; spinner_display := spinner_display pg;
     date_markup := date_markup pg; date_options := date_options pg;
     elements := elements pg; tabs := tabs pg; tabPanes := tabPanes pg;
     pending := pending pg; console := console pg |}.

Definition with_spinner (d : string) (pg : Page) : Page :=
  {| renderer := renderer pg; spinner_display := d;
     date_markup := date_markup pg; date_options := date_options pg;
     elements := elements pg; tabs := tabs pg; tabPanes := tabPanes pg;
     pending := pending pg; console := console pg |}.

(** [dateSelect.innerHTML = s]. *)
Definition set_date_markup (s : string) (pg : Page) : Page :=
  {| renderer := renderer pg; spinner_display := spinner_display pg;
     date_markup := s; date_options := [];
     elements := elements pg; tabs := tabs pg; tabPanes := tabPanes pg;
     pending := pending pg; console := console pg |}.

(** [dateSelect.appendChild(option)]. *)
Definition append_option (o : OptionEl) (pg : Page) : Page :=
  {| renderer := renderer pg; spinner_display := spinner_display pg;
     date_markup := date_markup pg; date_options := date_options pg ++ [o];
     elements := elements pg; tabs := tabs pg; tabPanes := tabPanes pg;
     pending := pending pg; console := console pg |}.

Definition with_elements (els : list Elem) (pg : Page) : Page :=
  {| renderer := renderer pg; spinner_display := spinner_display pg;
     date_markup := date_markup pg; date_options := date_options pg;
     elements := els; tabs := tabs pg; tabPanes := tabPanes pg;
     pending := pending pg; console := console pg |}.

Definition with_pending (reqs : list request) (pg : Page) : Page :=
  {| renderer := renderer pg; spinner_display := spinner_display pg;
     date_markup := date_markup pg; date_options := date_options pg;
     elements := elements pg; tabs := tabs pg; tabPanes := tabPanes pg;
     pending := reqs; console := console pg |}.

(** [console.error(...)]. *)
Definition log_error_entry (entry : LogEntry) (pg : Page) : Page :=
  {| renderer := renderer pg; spinner_display := spinner_display pg;
     date_markup := date_markup pg; date_options := date_options pg;
     elements := elements pg; tabs := tabs pg; tabPanes := tabPanes pg;
     pending := pending pg; console := console pg ++ [entry] |}.

(** Handlers: computations on the page that may raise. *)
Definition P (A : Type) : Type := Page -> outcome A * Page.

Definition pret {A : Type} (a : A) : P A := fun pg => (Returned a, pg).

Definition pbind {A B : Type} (m : P A) (k : A -> P B) : P B :=
  fun pg =>
    match m pg with
    | (Returned a, pg') => k a pg'
    | (Raised e, pg') => (Raised e, pg')
    end.

Definition raise {A : Type} (e : JsError) : P A := fun pg => (Raised e, pg).

Definition update (f : Page -> Page) : P unit := fun pg => (Returned tt, f pg).

(** [try { body } catch (error) { handler }]. *)
Definition try_catch {A : Type} (body : P A) (handler : JsError -> P A) : P A :=
  fun pg =>
    match body pg with
    | (Returned a, pg') => (Returned a, pg')
    | (Raised e, pg') => handler e pg'
    end.

(** [try { body } finally { final }]. *)
Definition try_finally {A : Type} (body : P A) (final : P unit) : P A :=
  fun pg =>
    match body pg with
    | (r, pg') =>
        match final pg' with
        | (Returned _, pg'') => (r, pg'')
        | (Raised e, pg'') => (Raised e, pg'')
        end
    end.

Declare Scope handler_scope.
Delimit Scope handler_scope with handler.
Notation "x <- m ;; k" := (pbind m (fun x => k))
  (at level 100, m at next level, right associativity) : handler_scope.
Notation "m ;; k" := (pbind m (fun _ => k))
  (at level 100, right associativity) : handler_scope.

Section Script.

(** [window.location.origin], kept in [API_URL] (line 3). *)
Variable API_URL : string.

(** The TypeError object the engine builds when an operation on the
    given value fails; its message is the engine's own. *)
Variable engineError : value -> JsError.

(** A computation on the renderer's state, run on the page; [blame] is
    the value whose handling may raise. *)
Definition on_renderer {A : Type} (m : M A) (blame : value) : P A :=
  fun pg =>
    match m (renderer pg) with
    | (Ok a, st) => (Returned a, with_renderer st pg)
    | (Throw TypeError, st) => (Raised (engineError blame), with_renderer st pg)
    end.

(** [showLoading], lines 34-36. *)
Definition showLoading (show : bool) : P unit :=
  update (with_spinner (if show then "block" else "none")).

(** *** Tab switching, lines 13-29 *)

(** [querySelectorAll(".c")]: the positions of the elements of class [c]. *)
Definition querySelectorAll (c : string) (els : list Elem) : list nat :=
  List.filter
    (fun i => match els !! i with
              | Some el => bool_decide (c ∈ el_classes el)
              | None => false
              end)
    (seq 0 (length els)).

(** The first position at which [key] occurs in a list of IDs. *)
Fixpoint find_id (key : string) (ids : list (option string)) : option nat :=
  match ids with
  | [] => None
  | id :: rest =>
      if bool_decide (id = Some key) then Some O else S <$> find_id key rest
  end.

(** [document.getElementById(key)]: the first element with that ID; no
    element has the empty ID. *)
Definition getElementById (key : string) (els : list Elem) : option nat :=
  if String.eqb key EmptyString then None
  else find_id key (map el_id els).

Definition remove_class (c : string) (el : Elem) : Elem :=
  {| el_id := el_id el; el_classes := el_classes el ∖ {[c]}; el_tab := el_tab el |}.

Definition add_class (c : string) (el : Elem) : Elem :=
  {| el_id := el_id el; el_classes := el_classes el ∪ {[c]}; el_tab := el_tab el |}.

(** [nodes.forEach(n => n.classList.remove("active"))]. *)
Definition deactivate_all (nodes : list nat) (els : list Elem) : list Elem :=
  fold_left (fun acc i => alter (remove_class "active") i acc) nodes els.

(** [tab.dataset.tab], converted to the string [getElementById] takes:
    a missing attribute reads as undefined. *)
Definition dataset_tab (t : nat) (els : list Elem) : string :=
  match els !! t with
  | Some el => match el_tab el with Some s => s | None => "undefined" end
  | None => "undefined"
  end.

(** The click listener of the tab at position [t], lines 17-28. *)
Definition tab_click (t : nat) : P unit :=
  (update (fun pg => with_elements (deactivate_all (tabs pg) (elements pg)) pg) ;;
   update (fun pg => with_elements (deactivate_all (tabPanes pg) (elements pg)) pg) ;;
   update (fun pg => with_elements (alter (add_class "active") t (elements pg)) pg) ;;
   fun pg =>
     match getElementById (dataset_tab t (elements pg)) (elements pg) with
     | None => raise (engineError VNull) pg
     | Some target =>
         (update (fun pg => with_elements (alter (add_class "active") target (elements pg)) pg) ;;
          on_renderer clearResults VUndefined) pg
     end)%handler.

(** *** The date list, lines 53-71 *)

Definition date_placeholder : string :=
  "<option value=" +:+ dq +:+ dq +:+ ">Select a date</option>".

Definition date_failure : string :=
  "<option value=" +:+ dq +:+ dq +:+ ">Could not load dates</option>".

(** [option.value = date; option.textContent = date]: the first converts
    with ToString, the second takes null and undefined as the empty
    string. *)
Definition make_option (date : value) : result OptionEl :=
  (let? v := ToString date in
   let? t := if is_nullish date then Ok EmptyString else ToString date in
   Ok {| opt_value := v; opt_text := t |})%res.

Fixpoint append_dates (dates : list value) : P unit :=
  match dates with
  | [] => pret tt
  | date :: rest =>
      (match make_option date with
       | Ok o => update (append_option o)
       | Throw TypeError => raise (engineError date)
       end ;;
       append_dates rest)%handler
  end.

(** [dates.forEach(...)]: only an array has the method. *)
Definition dates_forEach (dates : value) : P unit :=
  match dates with
  | VArr items => append_dates items
  | _ => raise (engineError dates)
  end.

(** [response.json()] awaited. *)
Definition json_of (body : Body) : P value :=
  match body with
  | Json v => pret v
  | BadJson e => raise e
  end.

(** [loadDates] from the point where its [fetch] settles, lines 56-70. *)
Definition loadDates_settled (f : Fetched) : P unit :=
  try_catch
    (match f with
     | Rejected e => raise e
     | Responded ok body =>
         if negb ok then
           raise {| err_name := "Error"; err_message := "Failed to load dates" |}
         else
           (dates <- json_of body ;;
            update (set_date_markup date_placeholder) ;;
            dates_forEach dates)%handler
     end)
    (fun error =>
       (update (log_error_entry {| log_label := Some "Error loading dates:";
                                   log_error := error |}) ;;
        update (set_date_markup date_failure))%handler).

(** [fetch(url)]: the request is in flight. *)
Definition fetch (req : request) : P unit :=
  update (fun pg => with_pending (pending pg ++ [req]) pg).

(** [loadDates] up to its first [await], line 56. *)
Definition loadDates : P unit :=
  fetch (DatesRequest (API_URL +:+ "/api/dates")).

(** *** The three form handlers, lines 213-282 *)

(** [`${API_URL}${path}?${params}`]. *)
Definition request_url (path : string) (params : list (string * string)) : string :=
  API_URL +:+ path +:+ "?" +:+ serialize params.

(** What the three handlers do before their [fetch]: lines 214-216,
    240-242, 263-265. *)
Definition submit_start : P unit :=
  (showLoading true ;; on_renderer clearResults VUndefined)%handler.

(** The number [5] of [top_k: 5], as [URLSearchParams] stores it. *)
Definition five : string := Num.to_string (Num.of_Z 5).

(** The pattern form, lines 213-227, given the values of its four inputs. *)
Definition submit_pattern (open high low close : string) : P unit :=
  (submit_start ;;
   fetch (SearchRequest
            (request_url "/api/search/pattern"
               [("open_price", open); ("high_price", high); ("low_price", low);
                ("close_price", close); ("top_k", five)])))%handler.

(** The date form, lines 239-250, given [dateSelect.value]. *)
Definition submit_date (target : string) : P unit :=
  (submit_start ;;
   fetch (SearchRequest
            (request_url "/api/search/date"
               [("target_date", target); ("top_k", five)])))%handler.

(** The volatility form, lines 262-272, given the value of its input. *)
Definition submit_volatility (top_k : string) : P unit :=
  (submit_start ;;
   fetch (SearchRequest (request_url "/api/search/volatility" [("top_k", top_k)])))%handler.

Definition search_failure (error : JsError) : string :=
  error_markup ("An error occurred: " +:+ err_message error).

(** Each of the three handlers from the point where its [fetch] settles:
    lines 228-235, 251-258, 273-281. The [ok] flag is not looked at. *)
Definition search_settled (f : Fetched) : P unit :=
  try_finally
    (try_catch
       (match f with
        | Rejected e => raise e
        | Responded _ body =>
            (data <- json_of body ;;
             on_renderer (displayResults data) data)%handler
        end)
       (fun error =>
          (update (log_error_entry {| log_label := None; log_error := error |}) ;;
           update (fun pg =>
                     with_renderer (set_results_markup (search_failure error) (renderer pg)) pg))%handler))
    (showLoading false).

(** *** Load and events *)

(** The page once the [DOMContentLoaded] callback has run: the node
    lists taken, no chart, [loadDates] called. *)
Definition loaded (els : list Elem) (results chart spinner dates : string) : Page :=
  {| renderer := initial results chart;
     spinner_display := spinner;
     date_markup := dates; date_options := [];
     elements := els;
     tabs := querySelectorAll "tab-link" els;
     tabPanes := querySelectorAll "tab-pane" els;
     pending := [DatesRequest (API_URL +:+ "/api/dates")];
     console := [] |}.

(** What happens on the page: a click on a tab, a form submitted with the
    values of its inputs, a request in flight settling. *)
Inductive event : Type :=
| ClickTab (t : nat)
| SubmitPattern (open high low close : string)
| SubmitDate (target : string)
| SubmitVolatility (top_k : string)
| Settle (i : nat) (f : Fetched).

Definition settle (i : nat) (f : Fetched) : P unit :=
  fun pg =>
    match pending pg !! i with
    | Some (SearchRequest _) => search_settled f (with_pending (delete i (pending pg)) pg)
    | Some (DatesRequest _) => loadDates_settled f (with_pending (delete i (pending pg)) pg)
    | None => pret tt pg
    end.

Definition handle (ev : event) : P unit :=
  match ev with
  | ClickTab t =>
      fun pg => if bool_decide (t ∈ tabs pg) then tab_click t pg else pret tt pg
  | SubmitPattern open high low close => submit_pattern open high low close
  | SubmitDate target => submit_date target
  | SubmitVolatility top_k => submit_volatility top_k
  | Settle i f => settle i f
  end.

(** An exception that leaves a listener is reported by the browser and
    the page goes on. *)
Definition react (pg : Page) (ev : event) : Page := snd (handle ev pg).

Definition play (evs : list event) (pg : Page) : Page := fold_left react evs pg.

Definition is_search (req : request) : bool :=
  match req with SearchRequest _ => true | DatesRequest _ => false end.

Definition is_active (el : Elem) : bool := bool_decide ("active" ∈ el_classes el).

End Script.

(** *** Notions in which the properties of the script are stated *)

Fixpoint string_forall (p : ascii -> bool) (s : string) : bool :=
  match s with
  | EmptyString => true
  | String c r => p c && string_forall p r
  end.

(** [c] is not one of the two separators of a query string. *)
Definition not_separator (c : ascii) : bool :=
  negb (c =? "&")%char && negb (c =? "=")%char.

(** A response from which [loadDates] fills the list: status ok, a body
    that is an array, entries that convert to strings. *)
Definition dates_ok (f : Fetched) : bool :=
  match f with
  | Responded true (Json (VArr items)) =>
      forallb (fun date => match make_option date with Ok _ => true | Throw _ => false end)
              items
  | _ => false
  end.

(** [pg'] differs from [pg] at most in the date list and the console. *)
Definition outside_date_list (pg pg' : Page) : Prop :=
  renderer pg' = renderer pg /\ spinner_display pg' = spinner_display pg /\
  elements pg' = elements pg /\ tabs pg' = tabs pg /\
  tabPanes pg' = tabPanes pg /\ pending pg' = pending pg.

(** The error a settled search hands to its [catch] block, if any. *)
Definition transport_error (f : Fetched) : option JsError :=
  match f with
  | Rejected e => Some e
  | Responded _ (BadJson e) => Some e
  | Responded _ (Json _) => None
  end.

(** *** Sample document *)

Definition sample_document : list Elem :=
  [ {| el_id := None; el_classes := {["tab-link"; "active"]}; el_tab := Some "pattern" |};
    {| el_id := None; el_classes := {["tab-link"]}; el_tab := Some "date" |};
    {| el_id := None; el_classes := {["tab-link"]}; el_tab := Some "missing" |};
    {| el_id := Some "pattern"; el_classes := {["tab-pane"; "active"]}; el_tab := None |};
    {| el_id := Some "date"; el_classes := {["tab-pane"]}; el_tab := None |} ].

(** The message of one engine for a TypeError, whatever the value. *)
Definition sample_engine_error (v : value) : JsError :=
  {| err_name := "TypeError"; err_message := "Cannot read properties of null" |}.


Definition sample_page : Page :=
  loaded "http://127.0.0.1:8000" sample_document EmptyString EmptyString EmptyString
         "<option>Loading dates...</option>".

Definition sample_dates : Fetched :=
  Responded true (Json (VArr [VStr "2023-01-01"; VStr "2023-01-02"])).

(** *** The Number builtins at known values *)

Example to_string_values :
  map Num.to_string
    [Num.of_Z 1; Num.of_Z (-5); half; Num.of_decimal false 1 (-1);
     Num.of_decimal false 1 21; Num.of_decimal false 1 (-7);
     Num.of_decimal false 123456789012345678901 0; Num.of_decimal false 5 (-324);
     Num.of_decimal false 17976931348623157 292; Num.of_decimal false 1 999;
     Num.of_decimal false 9007199254740993 0; S754_zero true; Num.NaN]
  = ["1"; "-5"; "0.5"; "0.1"; "1e+21"; "1e-7"; "123456789012345680000"; "5e-324";
     "1.7976931348623157e+308"; "Infinity"; "9007199254740992"; "0"; "NaN"].
Proof. vm_compute. reflexivity. Qed.

Example toFixed_values :
  map (fun x => Num.toFixed x 2)
    [Num.of_Z 0; S754_zero true; Num.of_decimal false 15025 (-2);
     Num.of_decimal false 1005 (-3); Num.of_decimal false 8345 (-3);
     Num.of_decimal true 1 (-3); Num.of_decimal false 1 21; Num.NaN;
     S754_infinity false]
  = ["0.00"; "0.00"; "150.25"; "1.00"; "8.35"; "-0.00"; "1e+21"; "NaN"; "Infinity"].
Proof. vm_compute. reflexivity. Qed.

Example parse_values :
  map (fun s => Num.to_string (Num.parse s))
    ["150.25"; "  -12.5e3xyz"; "undefined"; "null"; "."; ".5"; "5."; "1e"; "-0";
     "-Infinityx"; "1e999"; "0x10"; "1.7976931348623159e308";
     "2.4703282292062327e-324"; "2.4703282292062328e-324"; EmptyString]
  = ["150.25"; "-12500"; "NaN"; "NaN"; "NaN"; "0.5"; "5"; "1"; "0";
     "-Infinity"; "Infinity"; "0"; "Infinity"; "0"; "5e-324"; "NaN"].
Proof. vm_compute. reflexivity. Qed.

Example ToString_values :
  ToString (VArr [VNum (Num.of_Z 1); VNull; VArr [VStr "a"; VBool true]; VObj ∅])
  = Ok "1,,a,true,[object Object]" /\
  ToString (VObj (<["toString" := VNum (Num.of_Z 1)]> ∅)) = Throw TypeError.
Proof. split; vm_compute; reflexivity. Qed.

Example toLocaleString_values :
  map EnUS.format
    [Num.of_Z 1000000; Num.of_decimal false 1234567891 (-3); Num.of_Z 999;
     Num.of_decimal true 12345 (-1); Num.of_decimal false 5 (-4);
     Num.of_decimal false 10005 (-4); Num.of_decimal false 10004 (-4);
     Num.of_decimal false 123456789012345680000 0; Num.of_decimal false 1 21;
     Num.of_decimal true 1 (-4); Num.of_decimal false 9999 (-1);
     Num.of_decimal false 9999995 (-4)]
  = ["1,000,000"; "1,234,567.891"; "999"; "-1,234.5"; "0.001";
     "1.001"; "1"; "123,456,789,012,345,680,000"; "1,000,000,000,000,000,000,000";
     "-0"; "999.9"; "1,000"].
Proof. vm_compute. reflexivity. Qed.

(** *** Conversions *)

Lemma get_field (v : value) (k : string) :
  is_nullish v = false -> get v k = Ok (field v k).
Proof. destruct v; simpl; intros H; try discriminate; reflexivity. Qed.

Lemma get_nullish (v : value) (k : string) :
  is_nullish v = true -> get v k = Throw TypeError.
Proof. destruct v; simpl; intros H; try discriminate; reflexivity. Qed.

Lemma price_number (v : value) (x : Num.number) :
  parseFloat v = Ok x -> price v = Ok (VNum x).
Proof. intros H. unfold price. rewrite H. reflexivity. Qed.

(** The [?? 0] of lines 106-109 is never taken. *)
Lemma coalesce_number (x : Num.number) (d : value) : coalesce (VNum x) d = VNum x.
Proof. reflexivity. Qed.

(** Induction on a value, through the elements of an array. *)
Lemma value_nested_ind (P : value -> Prop) :
  P VUndefined -> P VNull -> (forall b, P (VBool b)) -> (forall x, P (VNum x)) ->
  (forall s, P (VStr s)) ->
  (forall elems, Forall P elems -> P (VArr elems)) ->
  (forall props, P (VObj props)) ->
  forall v, P v.
Proof.
  intros Hu Hn Hb Hx Hs Ha Ho. fix IH 1.
  intros [| | b | x | s | elems | props];
    [exact Hu | exact Hn | apply Hb | apply Hx | apply Hs | | apply Ho].
  apply Ha. induction elems as [|e r IHr]; constructor; [apply IH | exact IHr].
Qed.

Lemma ToString_array (x : value) (r : list value) :
  ToString (VArr (x :: r)) =
  (let? s := join_item ToString x in
   match r with
   | [] => Ok s
   | _ :: _ => let? t := ToString (VArr r) in Ok (s +:+ "," +:+ t)
   end)%res.
Proof. reflexivity. Qed.

Lemma stringable_array (x : value) (r : list value) :
  stringable (VArr (x :: r)) = (is_nullish x || stringable x) && stringable (VArr r).
Proof. reflexivity. Qed.

(** [stringable] tells exactly when [ToString] returns. *)
Lemma ToString_stringable (v : value) :
  if stringable v then exists s, ToString v = Ok s else ToString v = Throw TypeError.
Proof.
  induction v as [| | b | x | s | elems IH | props] using value_nested_ind;
    try (simpl; eauto; fail).
  - induction IH as [|x r Hx _ IHr]; [simpl; eauto|].
    rewrite stringable_array, ToString_array. unfold join_item.
    destruct (is_nullish x); cbn [orb rbind].
    + destruct r as [|y r']; [simpl; eauto|].
      destruct (stringable (VArr (y :: r'))).
      * destruct IHr as [t ->]. cbn [andb rbind]. eauto.
      * rewrite IHr. reflexivity.
    + destruct (stringable x).
      * destruct Hx as [s ->]. cbn [rbind]. destruct r as [|y r']; [simpl; eauto|].
        destruct (stringable (VArr (y :: r'))).
        -- destruct IHr as [t ->]. cbn [andb rbind]. eauto.
        -- rewrite IHr. reflexivity.
      * rewrite Hx. reflexivity.
  - simpl. destruct (has_own props "toString"); simpl; eauto.
Qed.



Lemma call_toLocaleString_array (x : value) (r : list value) :
  call_toLocaleString (VArr (x :: r)) =
  (let? s := join_item call_toLocaleString x in
   match r with
   | [] => Ok s
   | _ :: _ => let? t := call_toLocaleString (VArr r) in Ok (s +:+ "," +:+ t)
   end)%res.
Proof. reflexivity. Qed.

Lemma localizable_array (x : value) (r : list value) :
  localizable (VArr (x :: r)) = (is_nullish x || localizable x) && localizable (VArr r).
Proof. reflexivity. Qed.

(** [localizable] tells exactly when [toLocaleString] returns, on a
    value that has the method. *)
Lemma call_toLocaleString_localizable (v : value) :
  is_nullish v = false ->
  if localizable v then exists s, call_toLocaleString v = Ok s
  else call_toLocaleString v = Throw TypeError.
Proof.
  induction v as [| | b | x | s | elems IH | props] using value_nested_ind;
    intros Hn; try discriminate; try (simpl; eauto; fail).
  - clear Hn. induction IH as [|x r Hx _ IHr]; [simpl; eauto|].
    rewrite localizable_array, call_toLocaleString_array. unfold join_item.
    destruct (is_nullish x) eqn:Hnx; cbn [orb rbind].
    + destruct r as [|y r']; [simpl; eauto|].
      destruct (localizable (VArr (y :: r'))).
      * destruct IHr as [t ->]. cbn [andb rbind]. eauto.
      * rewrite IHr. reflexivity.
    + specialize (Hx eq_refl). destruct (localizable x).
      * destruct Hx as [s ->]. cbn [rbind]. destruct r as [|y r']; [simpl; eauto|].
        destruct (localizable (VArr (y :: r'))).
        -- destruct IHr as [t ->]. cbn [andb rbind]. eauto.
        -- rewrite IHr. reflexivity.
      * rewrite Hx. reflexivity.
  - simpl. destruct (has_own props "toLocaleString"); [reflexivity|].
    destruct (has_own props "toString"); simpl; eauto.
Qed.

(** *** The texts of a card *)

Lemma text_or_marker_coalesce (v : value) :
  ToString (coalesce v (VStr "N/A")) = text_or_marker v.
Proof. unfold coalesce, text_or_marker. destruct (is_nullish v); reflexivity. Qed.

Lemma nullish_stringable (v : value) : is_nullish v = true -> stringable v = true.
Proof. destruct v; simpl; intros H; try discriminate; reflexivity. Qed.

Lemma text_or_marker_stringable (v : value) :
  if stringable v then exists s, text_or_marker v = Ok s
  else text_or_marker v = Throw TypeError.
Proof.
  unfold text_or_marker. destruct (is_nullish v) eqn:Hn.
  - rewrite (nullish_stringable v Hn). eauto.
  - apply ToString_stringable.
Qed.

Lemma price_text_stringable (v : value) :
  if stringable v then exists s, price_text v = Ok s
  else price_text v = Throw TypeError.
Proof.
  unfold price_text, parseFloat. pose proof (ToString_stringable v) as H.
  destruct (stringable v).
  - destruct H as [s ->]. simpl. eauto.
  - rewrite H. reflexivity.
Qed.

Lemma nullish_localizable (v : value) : is_nullish v = true -> localizable v = true.
Proof. destruct v; simpl; intros H; try discriminate; reflexivity. Qed.

Lemma volume_text_localizable (v : value) :
  if localizable v then exists s, volume_text v = Ok s
  else volume_text v = Throw TypeError.
Proof.
  unfold volume_text. destruct (is_nullish v) eqn:Hn.
  - rewrite (nullish_localizable v Hn). eauto.
  - apply call_toLocaleString_localizable, Hn.
Qed.

Lemma volume_text_opt (v : value) :
  rbind (opt_toLocaleString v) (fun w => ToString (coalesce w (VStr "N/A"))) = volume_text v.
Proof.
  unfold opt_toLocaleString, volume_text. destruct (is_nullish v); [reflexivity|].
  destruct (call_toLocaleString v) as [s|e]; reflexivity.
Qed.

Lemma score_text_stringable (item : value) :
  if stringable (coalesce (field item "Similarity") (field item "Variance"))
  then exists s, score_text item = Ok s
  else score_text item = Throw TypeError.
Proof.
  unfold score_text.
  set (v := coalesce (field item "Similarity") (field item "Variance")).
  destruct (is_undefined v) eqn:Hu.
  - destruct v; try discriminate. simpl. eauto.
  - unfold parseFloat. pose proof (ToString_stringable v) as H.
    destruct (stringable v).
    + destruct H as [s ->]. simpl. eauto.
    + rewrite H. reflexivity.
Qed.

(** *** The monad *)

Lemma bind_ok {A B : Type} (m : M A) (k : A -> M B) (st st' : State) (a : A) :
  m st = (Ok a, st') -> bind m k st = k a st'.
Proof. intros H. unfold bind. rewrite H. reflexivity. Qed.

Lemma bind_throw {A B : Type} (m : M A) (k : A -> M B) (st st' : State) (e : exn) :
  m st = (Throw e, st') -> bind m k st = (Throw e, st').
Proof. intros H. unfold bind. rewrite H. reflexivity. Qed.

Lemma append_cards_nil (st : State) : append_cards [] st = st.
Proof. destruct st. unfold append_cards. simpl. rewrite app_nil_r. reflexivity. Qed.

Lemma append_cards_app (cs1 cs2 : list Element) (st : State) :
  append_cards cs2 (append_cards cs1 st) = append_cards (cs1 ++ cs2) st.
Proof. unfold append_cards. simpl. rewrite app_assoc. reflexivity. Qed.

Lemma clearResults_cleared (st : State) : clearResults st = (Ok tt, cleared st).
Proof.
  unfold clearResults, bind, modify, ret, cleared,
    destroy_chart, set_chart_display, set_results_markup. simpl.
  destruct (resultsChart st) as [r|] eqn:E; simpl; rewrite ?E; reflexivity.
Qed.

(** *** One entry *)

(** What a successful [derive] computed, field by field. *)
Lemma derive_inv (item : value) (d : Derived) :
  derive item = Ok d ->
  is_nullish item = false /\
  d_rank d = coalesce (field item "Rank") (VStr "N/A") /\
  d_date d = coalesce (field item "Date") (VStr "N/A") /\
  (exists x, parseFloat (field item "Open") = Ok x /\ d_open d = VNum x) /\
  (exists x, parseFloat (field item "High") = Ok x /\ d_high d = VNum x) /\
  (exists x, parseFloat (field item "Low") = Ok x /\ d_low d = VNum x) /\
  (exists x, parseFloat (field item "Close") = Ok x /\ d_close d = VNum x) /\
  (exists w, opt_toLocaleString (field item "Volume") = Ok w /\
             d_volume d = coalesce w (VStr "N/A")) /\
  d_scoreType d =
    (if negb (is_undefined (field item "Similarity")) then "Similarity" else "Variance") /\
  (let scoreValue := coalesce (field item "Similarity") (field item "Variance") in
   if negb (is_undefined scoreValue)
   then exists y, parseFloat scoreValue = Ok y /\ d_score d = Num.toFixed y 4
   else d_score d = "N/A").
Proof.
  intros H. destruct (is_nullish item) eqn:Hn.
  { unfold derive in H. rewrite (get_nullish item "Rank" Hn) in H. discriminate. }
  split; [reflexivity|].
  unfold derive in H. rewrite !(get_field item) in H by exact Hn.
  unfold price in H. cbn [rbind] in H.
  destruct (parseFloat (field item "Open")) as [xo|] eqn:Ho; [|discriminate].
  cbn [rbind] in H.
  destruct (parseFloat (field item "High")) as [xh|] eqn:Hh; [|discriminate].
  cbn [rbind] in H.
  destruct (parseFloat (field item "Low")) as [xl|] eqn:Hl; [|discriminate].
  cbn [rbind] in H.
  destruct (parseFloat (field item "Close")) as [xc|] eqn:Hc; [|discriminate].
  cbn [rbind] in H.
  destruct (opt_toLocaleString (field item "Volume")) as [w|] eqn:Hw; [|discriminate].
  cbn [rbind] in H.
  destruct (negb (is_undefined (coalesce (field item "Similarity") (field item "Variance"))))
    eqn:Hsv.
  - destruct (parseFloat (coalesce (field item "Similarity") (field item "Variance")))
      as [y|] eqn:Hy; [|discriminate].
    cbn [rbind call_toFixed] in H. injection H as <-. cbn.
    rewrite Hsv. repeat split; eauto.
  - cbn [rbind] in H. injection H as <-. cbn.
    rewrite Hsv. repeat split; eauto.
Qed.

(** The texts the loop body puts in the template are those of
    [entry_texts], and it raises an exception exactly when they do. *)
Lemma card_view_entry_texts (item : value) :
  is_nullish item = false -> rbind (derive item) card_view = entry_texts item.
Proof.
  intros Hn. unfold derive, entry_texts.
  rewrite !(get_field item) by exact Hn. cbn [rbind].
  rewrite <- !text_or_marker_coalesce, <- volume_text_opt.
  unfold price, price_text, score_text, score_label, card_view. cbv zeta.
  destruct (is_undefined (field item "Similarity"));
    destruct (is_undefined (coalesce (field item "Similarity") (field item "Variance")));
    cbn [negb];
    repeat (match goal with
            | |- context [rbind ?r _] =>
                lazymatch r with
                | Ok _ => fail
                | Throw _ => fail
                | rbind _ _ => fail
                | _ => destruct r as [?|[]]
                end
            end;
            cbn [rbind call_toFixed coalesce is_nullish d_date d_rank d_open d_high
                 d_low d_close d_volume d_scoreType d_score];
            try reflexivity).
Qed.

(** [renderable_entry] tells exactly when the texts of an entry exist. *)
Lemma entry_texts_renderable (item : value) :
  is_nullish item = false ->
  if renderable_entry item then exists t, entry_texts item = Ok t
  else entry_texts item = Throw TypeError.
Proof.
  intros Hn. unfold renderable_entry, entry_texts. rewrite Hn.
  cbn [negb andb forallb].
  pose proof (text_or_marker_stringable (field item "Rank")) as Hrank.
  pose proof (text_or_marker_stringable (field item "Date")) as Hdate.
  pose proof (price_text_stringable (field item "Open")) as Hopen.
  pose proof (price_text_stringable (field item "High")) as Hhigh.
  pose proof (price_text_stringable (field item "Low")) as Hlow.
  pose proof (price_text_stringable (field item "Close")) as Hclose.
  pose proof (volume_text_localizable (field item "Volume")) as Hvol.
  pose proof (score_text_stringable item) as Hscore.
  destruct (stringable (field item "Rank"));
    [destruct Hrank as [sr Hrank]|]; rewrite Hrank;
    (destruct (stringable (field item "Date"));
     [destruct Hdate as [sd Hdate]|]; rewrite Hdate);
    (destruct (stringable (field item "Open"));
     [destruct Hopen as [so Hopen]|]; rewrite Hopen);
    (destruct (stringable (field item "High"));
     [destruct Hhigh as [sh Hhigh]|]; rewrite Hhigh);
    (destruct (stringable (field item "Low"));
     [destruct Hlow as [sl Hlow]|]; rewrite Hlow);
    (destruct (stringable (field item "Close"));
     [destruct Hclose as [sc Hclose]|]; rewrite Hclose);
    (destruct (localizable (field item "Volume"));
     [destruct Hvol as [sv Hvol]|]; rewrite Hvol);
    (destruct (stringable (coalesce (field item "Similarity") (field item "Variance")));
     [destruct Hscore as [ss Hscore]|]; rewrite Hscore);
    cbn [rbind andb]; eauto.
Qed.

Lemma entry_texts_ok (item : value) :
  renderable_entry item = true -> exists t, entry_texts item = Ok t.
Proof.
  intros H.
  assert (Hn : is_nullish item = false).
  { unfold renderable_entry in H. destruct (is_nullish item); [discriminate | reflexivity]. }
  pose proof (entry_texts_renderable item Hn) as Ht. rewrite H in Ht. exact Ht.
Qed.



(** *** Parts of a string *)

Lemma append_empty (s : string) : EmptyString +:+ s = s.
Proof. reflexivity. Qed.

Lemma append_String (c : ascii) (r s : string) : String c r +:+ s = String c (r +:+ s).
Proof. reflexivity. Qed.

Lemma append_assoc (a b c : string) : (a +:+ b) +:+ c = a +:+ (b +:+ c).
Proof.
  induction a as [|x a IH]; [reflexivity|]. rewrite !append_String, IH. reflexivity.
Qed.

Lemma length_append (a b : string) :
  String.length (a +:+ b) = (String.length a + String.length b)%nat.
Proof.
  induction a as [|c a IH]; [reflexivity|].
  rewrite append_String. simpl. rewrite IH. reflexivity.
Qed.

Lemma drop_prefix_empty (s : string) : drop_prefix EmptyString s = Some s.
Proof. destruct s; reflexivity. Qed.

Lemma drop_prefix_char (c : ascii) (p s a : string) :
  drop_prefix p s = Some a -> drop_prefix (String c p) (String c s) = Some a.
Proof. intros H. cbn [drop_prefix]. rewrite Ascii.eqb_refl. exact H. Qed.

Lemma drop_prefix_var (v p s a : string) :
  drop_prefix p s = Some a -> drop_prefix (v +:+ p) (v +:+ s) = Some a.
Proof.
  intros H. induction v as [|c v IH]; [exact H|].
  rewrite !append_String. apply drop_prefix_char, IH.
Qed.

Lemma drop_prefix_append (p a : string) : drop_prefix p (p +:+ a) = Some a.
Proof.
  induction p as [|c p IH]; [apply drop_prefix_empty|].
  rewrite append_String. apply drop_prefix_char, IH.
Qed.

Lemma drop_prefix_sound (p : string) :
  forall s r, drop_prefix p s = Some r -> s = p +:+ r.
Proof.
  induction p as [|a p IH]; intros s r H.
  - rewrite drop_prefix_empty in H. injection H as <-. reflexivity.
  - destruct s as [|b s]; cbn [drop_prefix] in H; [discriminate|].
    destruct (Ascii.eqb_spec a b) as [->|]; [|discriminate].
    rewrite append_String. f_equal. apply IH, H.
Qed.

Lemma after_first_eq (p s : string) :
  after_first p s =
  match drop_prefix p s with
  | Some rest => Some rest
  | None =>
      match s with
      | String _ s' => after_first p s'
      | EmptyString => None
      end
  end.
Proof. destruct s; reflexivity. Qed.

Lemma after_first_sound (p : string) :
  forall s r, after_first p s = Some r -> exists b, s = b +:+ p +:+ r.
Proof.
  induction s as [|c s IH]; intros r E; rewrite after_first_eq in E.
  - destruct (drop_prefix p EmptyString) eqn:D; [|discriminate].
    injection E as ->. apply drop_prefix_sound in D. exists EmptyString. exact D.
  - destruct (drop_prefix p (String c s)) eqn:D.
    + injection E as ->. apply drop_prefix_sound in D. exists EmptyString. exact D.
    + destruct (IH r E) as [b ->]. exists (String c b). reflexivity.
Qed.

Lemma append_tail (u : string) :
  forall w r a,
    u +:+ r = w +:+ a -> (String.length u <= String.length w)%nat ->
    exists x, r = x +:+ a.
Proof.
  induction u as [|c u IH]; intros w r a H Hlen.
  - exists w. exact H.
  - destruct w as [|c' w]; [simpl in Hlen; lia|].
    rewrite !append_String in H. injection H as _ H.
    apply (IH w); [exact H | simpl in Hlen; lia].
Qed.

(** The first occurrence of [p] ends no later than any other. *)
Lemma after_first_found (p a b : string) :
  exists x, after_first p (b +:+ p +:+ a) = Some (x +:+ a).
Proof.
  induction b as [|c b IH].
  - exists EmptyString. rewrite append_empty, after_first_eq, drop_prefix_append.
    reflexivity.
  - rewrite append_String, after_first_eq.
    destruct (drop_prefix p (String c (b +:+ p +:+ a))) as [rest|] eqn:E.
    + apply drop_prefix_sound in E.
      rewrite <- append_String, <- append_assoc in E. symmetry in E.
      destruct (append_tail p (String c b +:+ p) rest a E) as [x ->].
      * rewrite length_append. lia.
      * exists x. reflexivity.
    + exact IH.
Qed.

Lemma holds_in_order_later (parts : list string) :
  forall x a, holds_in_order parts a = true -> holds_in_order parts (x +:+ a) = true.
Proof.
  induction parts as [|p rest IH]; intros x a H; [reflexivity|].
  cbn [holds_in_order] in *.
  destruct (after_first p a) as [r|] eqn:E; [|discriminate].
  destruct (after_first_sound p a r E) as [b ->].
  rewrite <- append_assoc.
  destruct (after_first_found p r (x +:+ b)) as [y ->].
  apply IH, H.
Qed.

Lemma holds_skip_char (parts : list string) (c : ascii) (s : string) :
  holds_in_order parts s = true -> holds_in_order parts (String c s) = true.
Proof. apply (holds_in_order_later parts (String c EmptyString) s). Qed.

Lemma holds_here (p : string) (parts : list string) (s a : string) :
  drop_prefix p s = Some a -> holds_in_order parts a = true ->
  holds_in_order (p :: parts) s = true.
Proof. intros D H. cbn [holds_in_order]. rewrite after_first_eq, D. exact H. Qed.

(** The card template holds the parts of a card, whatever the texts. *)
Lemma card_markup_parts (t : CardView) :
  holds_in_order (card_parts t) (card_markup t) = true.
Proof.
  unfold card_parts, card_markup, line, cls.
  rewrite !append_assoc. cbv [String.append dq nl spaces].
  repeat first
    [ reflexivity
    | eapply holds_here;
      [solve [repeat first [apply drop_prefix_empty | apply drop_prefix_char
                           | apply drop_prefix_var]]|]
    | apply holds_skip_char
    | apply holds_in_order_later ].
Qed.

Lemma make_card_shows (t : CardView) : card_shows t (make_card t).
Proof.
  split; [reflexivity|]. split; [reflexivity|]. apply card_markup_parts.
Qed.

Lemma push_row_extend (label : string) (d : Derived) (acc : Series) :
  push_row label d acc =
  extend acc [{| r_label := label; r_open := d_open d; r_high := d_high d;
                 r_low := d_low d; r_close := d_close d |}].
Proof. reflexivity. Qed.

Lemma extend_nil (acc : Series) : extend acc [] = acc.
Proof. destruct acc. unfold extend. simpl. rewrite !app_nil_r. reflexivity. Qed.

Lemma extend_app (acc : Series) (rows1 rows2 : list Row) :
  extend (extend acc rows1) rows2 = extend acc (rows1 ++ rows2).
Proof. unfold extend. simpl. rewrite !map_app, !app_assoc. reflexivity. Qed.

(** An entry the loop body renders: its card is appended, and its row
    is pushed exactly when [Open] is defined. *)
Lemma each_item_renderable (item : value) :
  renderable_entry item = true ->
  exists t rows,
    entry_texts item = Ok t /\
    (if has_open item then exists row, charted_row item row /\ rows = [row]
     else rows = []) /\
    forall acc st,
      each_item item acc st = (Ok (extend acc rows), append_cards [make_card t] st).
Proof.
  intros H. destruct (entry_texts_ok item H) as [t Ht].
  assert (Hn : is_nullish item = false).
  { unfold renderable_entry in H. destruct (is_nullish item); [discriminate | reflexivity]. }
  pose proof (card_view_entry_texts item Hn) as Hcv. rewrite Ht in Hcv.
  destruct (derive item) as [d|] eqn:Hd; [|discriminate]. cbn [rbind] in Hcv.
  destruct (derive_inv item d Hd)
    as (_ & Hrank & Hdate & [xo [Ho Hdo]] & [xh [Hh Hdh]] & [xl [Hl Hdl]] &
        [xc [Hc Hdc]] & _).
  assert (Hlabel : chart_label d = entry_label item).
  { unfold chart_label, entry_label.
    rewrite Hrank, Hdate, !text_or_marker_coalesce. reflexivity. }
  assert (Hl' : exists l, entry_label item = Ok l).
  { unfold card_view in Hcv. rewrite Hrank, Hdate, !text_or_marker_coalesce in Hcv.
    unfold entry_label.
    destruct (text_or_marker (field item "Date")) as [sd|]; [|discriminate].
    cbn [rbind] in Hcv.
    destruct (text_or_marker (field item "Rank")) as [sr|]; [|discriminate].
    cbn [rbind]. eauto. }
  destruct Hl' as [l Hl'].
  exists t.
  exists (if has_open item
          then [{| r_label := l; r_open := d_open d; r_high := d_high d;
                   r_low := d_low d; r_close := d_close d |}]
          else []).
  split; [exact Ht|]. split.
  - destruct (has_open item); [|reflexivity].
    eexists; split; [|reflexivity].
    unfold charted_row, entry_bar. cbn [r_label r_open r_high r_low r_close].
    rewrite Ho, Hh, Hl, Hc, Hdo, Hdh, Hdl, Hdc. repeat split; assumption.
  - intros acc st. unfold each_item, bind, lift, modify, ret.
    rewrite Hd, Hcv, (get_field item "Open" Hn). fold (has_open item).
    destruct (has_open item).
    + rewrite Hlabel, Hl'. rewrite push_row_extend. reflexivity.
    + rewrite extend_nil. reflexivity.
Qed.


(** Whatever the entry, the loop body only appends cards, and what it
    appends and returns does not depend on the page. *)
Lemma each_item_frame (item : value) (acc : Series) :
  exists r cs, forall st, each_item item acc st = (r, append_cards cs st).
Proof.
  unfold each_item, bind, lift, modify, ret.
  destruct (derive item) as [d|e].
  2:{ exists (Throw e), []. intros st. rewrite append_cards_nil. reflexivity. }
  destruct (card_view d) as [c|e].
  2:{ exists (Throw e), []. intros st. rewrite append_cards_nil. reflexivity. }
  destruct (get item "Open") as [o|e].
  2:{ exists (Throw e), [make_card c]. intros st. reflexivity. }
  destruct (negb (is_undefined o)).
  - destruct (chart_label d) as [l|e].
    + exists (Ok (push_row l d acc)), [make_card c]. intros st. reflexivity.
    + exists (Throw e), [make_card c]. intros st. reflexivity.
  - exists (Ok acc), [make_card c]. intros st. reflexivity.
Qed.

(** *** The loop *)

Lemma forEach_frame (items : list value) :
  forall acc, exists r cs, forall st, forEach items acc st = (r, append_cards cs st).
Proof.
  induction items as [|item rest IH]; intros acc.
  - exists (Ok acc), []. intros st. simpl. unfold ret. rewrite append_cards_nil. reflexivity.
  - destruct (each_item_frame item acc) as (r & cs & Hr).
    destruct r as [acc'|e].
    + destruct (IH acc') as (r' & cs' & Hr').
      exists r', (cs ++ cs')%list. intros st. simpl.
      rewrite (bind_ok _ _ _ _ _ (Hr st)), Hr', append_cards_app. reflexivity.
    + exists (Throw e), cs. intros st. simpl.
      rewrite (bind_throw _ _ _ _ _ (Hr st)). reflexivity.
Qed.

Lemma forEach_renderable (items : list value) :
  forallb renderable_entry items = true ->
  exists texts rows,
    Forall2 (fun item t => entry_texts item = Ok t) items texts /\
    Forall2 charted_row (List.filter has_open items) rows /\
    forall acc st,
      forEach items acc st =
      (Ok (extend acc rows), append_cards (map make_card texts) st).
Proof.
  induction items as [|item rest IH]; intros H.
  - exists [], []. repeat split; try constructor.
    intros acc st. simpl. unfold ret. rewrite extend_nil, append_cards_nil. reflexivity.
  - cbn [forallb] in H. apply andb_prop in H as [Hitem Hrest].
    destruct (IH Hrest) as (texts & rows & Htexts & Hrows & Hrun).
    destruct (each_item_renderable item Hitem) as (t & rows0 & Ht & Hrow0 & Hstep).
    exists (t :: texts), (rows0 ++ rows)%list. split; [constructor; assumption|]. split.
    + simpl. destruct (has_open item).
      * destruct Hrow0 as (row & Hrow & ->). simpl. constructor; assumption.
      * subst rows0. exact Hrows.
    + intros acc st. simpl.
      rewrite (bind_ok _ _ _ _ _ (Hstep acc st)), Hrun, extend_app, append_cards_app.
      reflexivity.
Qed.


(** *** The whole render *)

Lemma displayResults_start (data : value) (st : State) :
  get data "detail" = Throw TypeError ->
  displayResults data st = (Throw TypeError, cleared st).
Proof.
  intros H. unfold displayResults.
  rewrite (bind_ok _ _ _ _ _ (clearResults_cleared st)).
  unfold bind, lift. rewrite H. reflexivity.
Qed.

Lemma displayResults_error (data detail : value) (text : string) (st : State) :
  get data "detail" = Ok detail -> ToBoolean detail = true ->
  ToString detail = Ok text ->
  displayResults data st =
  (Ok tt, set_results_markup (error_markup text) (cleared st)).
Proof.
  intros Hg Hb Hs. unfold displayResults.
  rewrite (bind_ok _ _ _ _ _ (clearResults_cleared st)).
  unfold bind, lift, modify. rewrite Hg, Hb, Hs. reflexivity.
Qed.

Lemma displayResults_error_throws (data detail : value) (st : State) :
  get data "detail" = Ok detail -> ToBoolean detail = true ->
  ToString detail = Throw TypeError ->
  displayResults data st = (Throw TypeError, cleared st).
Proof.
  intros Hg Hb Hs. unfold displayResults.
  rewrite (bind_ok _ _ _ _ _ (clearResults_cleared st)).
  unfold bind, lift, modify. rewrite Hg, Hb, Hs. reflexivity.
Qed.

Lemma displayResults_no_results (data detail : value) (st : State) :
  get data "detail" = Ok detail -> ToBoolean detail = false ->
  isArray data = false \/ data = VArr [] ->
  displayResults data st =
  (Ok tt, set_results_markup no_results_markup (cleared st)).
Proof.
  intros Hg Hb Hshape. unfold displayResults.
  rewrite (bind_ok _ _ _ _ _ (clearResults_cleared st)).
  unfold bind, lift, modify. rewrite Hg, Hb.
  destruct Hshape as [Hna | ->]; [|reflexivity].
  destruct data; try discriminate; reflexivity.
Qed.

Lemma displayResults_entries (item : value) (rest : list value) (st : State) :
  displayResults (VArr (item :: rest)) st =
  match forEach (item :: rest) no_series (cleared st) with
  | (Ok series, st') =>
      if (0 <? length (chartLabels series))%nat
      then (Ok tt, new_chart (chart_config series) (set_chart_display "block" st'))
      else (Ok tt, st')
  | (Throw e, st') => (Throw e, st')
  end.
Proof.
  unfold displayResults.
  rewrite (bind_ok _ _ _ _ _ (clearResults_cleared st)).
  unfold bind at 1. unfold lift at 1.
  change (get (VArr (item :: rest)) "detail") with (@Ok value VUndefined).
  cbv beta iota. change (ToBoolean VUndefined) with false. cbv beta iota.
  change (length (item :: rest) =? 0)%nat with false. cbv beta iota.
  unfold bind at 1.
  destruct (forEach (item :: rest) no_series (cleared st)) as [[series|e] st'];
    [|reflexivity].
  destruct (0 <? length (chartLabels series))%nat; reflexivity.
Qed.

(** Every render is a paint on the cleared page, and neither the
    outcome nor the paint depends on the page it started from. *)
Lemma display_paint (data : value) :
  exists r p, forall st, displayResults data st = (r, apply_paint p (cleared st)).
Proof.
  destruct (get data "detail") as [detail|[]] eqn:Hg.
  2:{ exists (Throw TypeError), Untouched. intros st. apply displayResults_start, Hg. }
  destruct (ToBoolean detail) eqn:Hb.
  { destruct (ToString detail) as [text|[]] eqn:Hs.
    - exists (Ok tt), (Message (error_markup text)). intros st.
      eapply displayResults_error; eassumption.
    - exists (Throw TypeError), Untouched. intros st.
      eapply displayResults_error_throws; eassumption. }
  destruct data as [| | b | x | s | [|item rest] | props];
    try (exists (Ok tt), (Message no_results_markup); intros st;
         eapply displayResults_no_results; eauto; fail).
  destruct (forEach_frame (item :: rest) no_series) as (r & cs & Hrun).
  destruct r as [series|e].
  - destruct (0 <? length (chartLabels series))%nat eqn:Hlen.
    + exists (Ok tt), (CardsAndChart cs (chart_config series)). intros st.
      rewrite displayResults_entries, Hrun, Hlen. reflexivity.
    + exists (Ok tt), (Cards cs). intros st.
      rewrite displayResults_entries, Hrun, Hlen. reflexivity.
  - exists (Throw e), (Cards cs). intros st.
    rewrite displayResults_entries, Hrun. reflexivity.
Qed.

(** *** The chart invariant *)

Lemma cleared_display (st : State) : chart_display (cleared st) = "none".
Proof. reflexivity. Qed.

Lemma cleared_blank (st : State) : chart_inv st -> cleared st = blank (next_ref st).
Proof.
  unfold chart_inv, cleared, blank. destruct (resultsChart st) as [r|].
  - intros [_ [cfg ->]]. simpl. rewrite Nat.eqb_refl. reflexivity.
  - intros ->. reflexivity.
Qed.

Lemma chart_inv_blank (n : nat) : chart_inv (blank n).
Proof. reflexivity. Qed.

Lemma chart_inv_paint (p : paint) (n : nat) : chart_inv (apply_paint p (blank n)).
Proof.
  destruct p; simpl; try reflexivity.
  unfold chart_inv. simpl. split; [lia | eauto].
Qed.

Lemma visible_paint (p : paint) (n1 n2 : nat) :
  visible (apply_paint p (blank n1)) = visible (apply_paint p (blank n2)).
Proof. destruct p; reflexivity. Qed.

Lemma chart_inv_initial (markup display : string) : chart_inv (initial markup display).
Proof. reflexivity. Qed.

Lemma chart_inv_clearResults (st : State) :
  chart_inv st -> chart_inv (snd (clearResults st)).
Proof.
  intros H. rewrite clearResults_cleared. simpl. rewrite (cleared_blank st H).
  apply chart_inv_blank.
Qed.

Lemma chart_inv_displayResults (data : value) (st : State) :
  chart_inv st -> chart_inv (snd (displayResults data st)).
Proof.
  intros H. destruct (display_paint data) as (r & p & Hp).
  rewrite Hp. simpl. rewrite (cleared_blank st H). apply chart_inv_paint.
Qed.

Lemma chart_inv_step (st : State) (o : op) : chart_inv st -> chart_inv (step st o).
Proof.
  destruct o; simpl;
    [apply chart_inv_displayResults | apply chart_inv_clearResults | trivial].
Qed.

Lemma chart_inv_run (ops : list op) :
  forall st, chart_inv st -> chart_inv (run ops st).
Proof.
  induction ops as [|o ops IH]; intros st H; simpl; [exact H|].
  apply IH, chart_inv_step, H.
Qed.

Lemma chart_inv_at_most_one (st : State) :
  chart_inv st -> (length (live_charts st) <= 1)%nat.
Proof.
  unfold chart_inv. destruct (resultsChart st).
  - intros [_ [cfg ->]]. simpl. lia.
  - intros ->. simpl. lia.
Qed.

(** An instance held before a render is not live after it. *)
Lemma previous_chart_disposed (data : value) (st : State) (r : nat) :
  chart_inv st -> resultsChart st = Some r ->
  ~ In r (map fst (live_charts (snd (displayResults data st)))).
Proof.
  intros Hinv Hr. destruct (display_paint data) as (res & p & Hp).
  rewrite Hp. simpl. rewrite (cleared_blank st Hinv).
  unfold chart_inv in Hinv. rewrite Hr in Hinv. destruct Hinv as [Hlt _].
  destruct p; simpl; try tauto.
  intros [Heq | []]. lia.
Qed.

(** *** Fixed-point notation of [toFixed] *)

Lemma digit_char_is_digit (d : Z) :
  0 <= d < 10 -> Digits.is_digit (Digits.digit_char d) = true.
Proof.
  intros H.
  assert (Hd : d = 0 \/ d = 1 \/ d = 2 \/ d = 3 \/ d = 4 \/
               d = 5 \/ d = 6 \/ d = 7 \/ d = 8 \/ d = 9) by lia.
  repeat (destruct Hd as [-> | Hd]; [reflexivity|]). subst d. reflexivity.
Qed.

Lemma low_digits_all (k : nat) :
  forall n acc, Shape.all_digits acc = true ->
                Shape.all_digits (Digits.low_digits k n acc) = true.
Proof.
  induction k as [|k IH]; intros n acc Hacc; cbn [Digits.low_digits]; [exact Hacc|].
  apply IH. cbn [Shape.all_digits]. rewrite Hacc, digit_char_is_digit; [reflexivity|].
  apply Z.mod_pos_bound. lia.
Qed.

Lemma low_digits_length (k : nat) :
  forall n acc,
    String.length (Digits.low_digits k n acc) = (k + String.length acc)%nat.
Proof.
  induction k as [|k IH]; intros n acc; cbn [Digits.low_digits]; [reflexivity|].
  rewrite IH. cbn [String.length]. lia.
Qed.

Lemma fixed_digits_all (k : nat) (n : Z) :
  Shape.all_digits (Digits.fixed_digits k n) = true.
Proof. apply low_digits_all. reflexivity. Qed.

Lemma fixed_digits_length (k : nat) (n : Z) :
  String.length (Digits.fixed_digits k n) = k.
Proof. unfold Digits.fixed_digits. rewrite low_digits_length. simpl. lia. Qed.

Lemma ndigits_pos (n : Z) : (1 <= Digits.ndigits n)%nat.
Proof.
  unfold Digits.ndigits. generalize (Z.to_nat (Z.log2 n)) as fuel.
  intros fuel. destruct fuel; simpl; [lia|]. destruct (n <? 10); lia.
Qed.

Lemma of_Z_all (n : Z) : Shape.all_digits (Digits.of_Z n) = true.
Proof. apply fixed_digits_all. Qed.

Lemma of_Z_head (n : Z) :
  exists c r, Digits.of_Z n = String c r /\ Digits.is_digit c = true.
Proof.
  pose proof (of_Z_all n) as Hall.
  pose proof (fixed_digits_length (Digits.ndigits n) n) as Hlen.
  pose proof (ndigits_pos n) as Hpos.
  fold (Digits.of_Z n) in Hlen.
  destruct (Digits.of_Z n) as [|c r]; simpl in *; [lia|].
  exists c, r. split; [reflexivity|].
  apply andb_prop in Hall. tauto.
Qed.

Lemma is_digit_not (c other : ascii) :
  Digits.is_digit c = true -> Digits.is_digit other = false ->
  (c =? other)%char = false.
Proof.
  intros Hc Ho. destruct (Ascii.eqb_spec c other) as [->|]; [congruence | reflexivity].
Qed.

Lemma int_frac_append (k : nat) (frac : string) :
  Shape.all_digits frac = true -> String.length frac = k ->
  forall ip seen,
    Shape.all_digits ip = true -> seen = true \/ ip <> EmptyString ->
    Shape.int_frac k (ip +:+ "." +:+ frac) seen = true.
Proof.
  intros Hfrac Hlen. induction ip as [|c r IH]; intros seen Hip Hseen.
  - destruct Hseen as [-> | Hne]; [|congruence].
    rewrite append_empty, append_String, append_empty. cbn [Shape.int_frac].
    change ("." =? ".")%char with true. cbv iota.
    rewrite Hfrac, Hlen, Nat.eqb_refl. reflexivity.
  - cbn [Shape.all_digits] in Hip. apply andb_prop in Hip as [Hc Hr].
    rewrite append_String. cbn [Shape.int_frac].
    rewrite (is_digit_not c "." Hc eq_refl), Hc. cbn [andb].
    apply IH; [exact Hr | left; reflexivity].
Qed.

Lemma fixed_point_decimals (n : Z) (f : nat) :
  (0 < f)%nat -> Shape.has_decimals f (Num.fixed_point n f) = true.
Proof.
  intros Hf. unfold Num.fixed_point. destruct f as [|f']; [lia|].
  set (p := 10 ^ Z.of_nat (S f')).
  destruct (of_Z_head (n / p)) as (c & r & Hhead & Hc).
  pose proof (of_Z_all (n / p)) as Hall.
  unfold Shape.has_decimals. rewrite Hhead in *. rewrite append_String.
  cbn [Shape.strip_minus]. rewrite (is_digit_not c "-" Hc eq_refl).
  cbn [Shape.int_frac]. rewrite (is_digit_not c "." Hc eq_refl), Hc.
  cbn [Shape.all_digits] in Hall. apply andb_prop in Hall as [_ Hr]. cbn [andb].
  apply int_frac_append;
    [apply fixed_digits_all | apply fixed_digits_length | exact Hr | left; reflexivity].
Qed.

Lemma minus_fixed_point_decimals (n : Z) (f : nat) :
  (0 < f)%nat -> Shape.has_decimals f ("-" +:+ Num.fixed_point n f) = true.
Proof.
  intros Hf. unfold Num.fixed_point. destruct f as [|f']; [lia|].
  unfold Shape.has_decimals. rewrite append_String, append_empty.
  cbn [Shape.strip_minus]. change ("-" =? "-")%char with true. cbv iota.
  apply int_frac_append;
    [apply fixed_digits_all | apply fixed_digits_length | apply of_Z_all |].
  right. destruct (of_Z_head (n / 10 ^ Z.of_nat (S f'))) as (c & r & -> & _).
  discriminate.
Qed.

(** In its fixed-point range, [toFixed] writes exactly the requested
    number of decimals. *)
Lemma toFixed_decimals (x : Num.number) (f : nat) :
  Shape.fixed_range x = true -> (0 < f)%nat ->
  Shape.has_decimals f (Num.toFixed x f) = true.
Proof.
  intros Hx Hf. destruct x as [s | s | | s m e];
    cbn [Shape.fixed_range] in Hx; try discriminate.
  - apply fixed_point_decimals, Hf.
  - unfold Num.toFixed.
    destruct (10 ^ 21 * Num.den_of e <=? Num.num_of m e); [discriminate|].
    destruct s; [apply minus_fixed_point_decimals | apply fixed_point_decimals]; exact Hf.
Qed.

(** *** Claims on the payload-level branches *)


(** A non-empty string is truthy and converts to itself. *)
Lemma string_detail_verbatim (s : string) :
  s <> EmptyString -> ToBoolean (VStr s) = true /\ ToString (VStr s) = Ok s.
Proof.
  intros Hs. split; [|reflexivity]. simpl.
  destruct (String.eqb_spec s EmptyString); [contradiction | reflexivity].
Qed.

(** C9, as amended. A payload that is not null, whose [detail] is
    absent or falsy, and that is not an array or is an empty array, is
    rendered as exactly the no-results placeholder: no card, the chart
    container hidden, no chart held. *)
Theorem C9_no_results_placeholder (data : value) (st : State) :
  is_nullish data = false ->
  ToBoolean (field data "detail") = false ->
  isArray data = false \/ data = VArr [] ->
  exists st',
    displayResults data st = (Ok tt, st') /\
    results_markup st' = no_results_markup /\
    results_cards st' = [] /\
    chart_display st' = "none" /\
    resultsChart st' = None.
Proof.
  intros Hn Hb Hshape.
  exists (set_results_markup no_results_markup (cleared st)).
  split; [|repeat split].
  eapply displayResults_no_results; [apply get_field, Hn | exact Hb | exact Hshape].
Qed.

(** *** Cards and rows of a result set *)

Lemma Forall2_map_right {A B C : Type} (P : A -> B -> Prop) (Q : A -> C -> Prop)
    (f : B -> C) :
  (forall a b, P a b -> Q a (f b)) ->
  forall l l', Forall2 P l l' -> Forall2 Q l (map f l').
Proof.
  intros HPQ l l' H. induction H as [|a b l l' Hab _ IH]; simpl; constructor; auto.
Qed.

Lemma cards_of_texts (items : list value) (texts : list CardView) :
  Forall2 (fun item t => entry_texts item = Ok t) items texts ->
  Forall2 card_for items (map make_card texts).
Proof.
  apply Forall2_map_right. intros item t Ht. exists t.
  split; [exact Ht | apply make_card_shows].
Qed.

Lemma filter_has_open (items : list value) :
  Exists (fun item => has_open item = true) items <-> List.filter has_open items <> [].
Proof.
  rewrite List.Exists_exists. split.
  - intros (item & Hin & Hopen) Hnil.
    assert (Hf : In item (List.filter has_open items)) by (apply List.filter_In; auto).
    rewrite Hnil in Hf. destruct Hf.
  - intros Hnn. destruct (List.filter has_open items) as [|item l] eqn:E; [congruence|].
    assert (Hf : In item (List.filter has_open items)) by (rewrite E; left; reflexivity).
    apply List.filter_In in Hf. exists item. exact Hf.
Qed.


(** C6. For a result set of [n >= 1] entries that the loop body
    renders, [displayResults] returns normally and the results
    container holds exactly [n] result cards, one per entry and in the
    order of the entries. The card of an entry is an element of class
    result-card; its markup is the card template around the texts of
    that entry and holds, in this order, its date as heading, its rank
    badge, its four price metrics, its volume metric and its score
    line. *)
Theorem C6_one_card_per_entry (items : list value) (st : State) :
  (1 <= length items)%nat ->
  forallb renderable_entry items = true ->
  exists st',
    displayResults (VArr items) st = (Ok tt, st') /\
    results_markup st' = EmptyString /\
    length (results_cards st') = length items /\
    Forall2 card_for items (results_cards st').
Proof.
  intros Hlen Hrender.
  destruct (forEach_renderable items Hrender) as (texts & rows & Htexts & _ & Hrun).
  pose proof (cards_of_texts items texts Htexts) as Hcards.
  assert (Hlc : length items = length (map make_card texts))
    by (eapply Forall2_length; exact Hcards).
  destruct items as [|item rest]; [simpl in Hlen; lia|].
  rewrite displayResults_entries, Hrun.
  destruct (0 <? length (chartLabels (extend no_series rows)))%nat;
    eexists; (split; [reflexivity|]); simpl;
    (split; [reflexivity|]); (split; [|exact Hcards]);
    symmetry; exact Hlc.
Qed.

(** C5. For a non-empty result set of entries that the loop body
    renders, every entry has its result card, charted or not, and the
    chart container is shown exactly when some entry has [Open]
    defined. The chart then constructed is a bar chart; its labels are
    those of the entries with [Open] defined, in their order; it has
    four datasets, labelled Open, High, Low and Close, and each holds,
    for the same entries in the same order, that price parsed as a
    number; so the labels and the four datasets have as many elements
    as there are such entries. *)
Theorem C5_chart_of_entries_with_open (items : list value) (st : State) :
  items <> [] ->
  forallb renderable_entry items = true ->
  let charted := List.filter has_open items in
  exists st',
    displayResults (VArr items) st = (Ok tt, st') /\
    length (results_cards st') = length items /\
    Forall2 card_for items (results_cards st') /\
    (chart_display st' = "block" <-> Exists (fun item => has_open item = true) items) /\
    (charted = [] -> chart_display st' = "none" /\ resultsChart st' = None) /\
    (charted <> [] ->
     exists r cfg,
       resultsChart st' = Some r /\
       In (r, cfg) (live_charts st') /\
       chart_type cfg = "bar" /\
       length (chart_labels cfg) = length charted /\
       Forall2 (fun item label => entry_label item = Ok label) charted (chart_labels cfg) /\
       Forall2 (fun k ds =>
                  ds_label ds = k /\
                  length (ds_data ds) = length charted /\
                  Forall2 (fun item bar => entry_bar k item = Ok bar) charted (ds_data ds))
               ["Open"; "High"; "Low"; "Close"] (chart_datasets cfg)).
Proof.
  intros Hne Hrender charted.
  destruct (forEach_renderable items Hrender) as (texts & rows & Htexts & Hrows & Hrun).
  fold charted in Hrows.
  pose proof (cards_of_texts items texts Htexts) as Hcards.
  pose proof (filter_has_open items) as Hexists. fold charted in Hexists.
  assert (Hlr : length charted = length rows)
    by (eapply Forall2_length; exact Hrows).
  assert (Hlc : length items = length (map make_card texts))
    by (eapply Forall2_length; exact Hcards).
  destruct items as [|item rest]; [congruence|].
  rewrite displayResults_entries, Hrun.
  assert (Hser : extend no_series rows = series_of rows) by reflexivity.
  rewrite Hser.
  assert (Hlabels : length (chartLabels (series_of rows)) = length rows)
    by (simpl; apply length_map).
  rewrite Hlabels.
  destruct rows as [|row rows'].
  - (* no entry has Open *)
    assert (Hc : charted = []) by (destruct charted; [reflexivity | simpl in Hlr; lia]).
    simpl. eexists. split; [reflexivity|]. simpl.
    split; [symmetry; exact Hlc|]. split; [exact Hcards|]. split; [|split].
    + rewrite Hexists, Hc. split; [discriminate | congruence].
    + intros _. split; reflexivity.
    + intros Hnn. congruence.
  - assert (Hc : charted <> []) by (destruct charted; [simpl in Hlr; lia | discriminate]).
    simpl. eexists. split; [reflexivity|]. simpl.
    split; [symmetry; exact Hlc|]. split; [exact Hcards|]. split; [|split].
    + rewrite Hexists. split; [intros _; exact Hc | reflexivity].
    + intros Hnil. congruence.
    + intros _. exists (next_ref st), (chart_config (series_of (row :: rows'))).
      split; [reflexivity|]. split; [apply in_or_app; right; left; reflexivity|].
      split; [reflexivity|].
      split; [cbn [chart_config chart_labels series_of chartLabels];
              rewrite length_map; symmetry; exact Hlr|].
      split.
      { cbn [chart_config chart_labels series_of chartLabels].
        revert Hrows. apply Forall2_map_right. intros i r Hr. apply Hr. }
      cbn [chart_config chart_datasets series_of chartData_open chartData_high
           chartData_low chartData_close].
      repeat constructor; cbn [dataset ds_data];
        try (rewrite length_map; symmetry; exact Hlr);
        (revert Hrows; apply Forall2_map_right; intros i r Hr; apply Hr).
Qed.


(** *** Claims on the chart instance *)

Lemma render_twice_inv (data : value) (st : State) :
  chart_inv st ->
  fst (displayResults data (snd (displayResults data st))) = fst (displayResults data st) /\
  visible (snd (displayResults data (snd (displayResults data st)))) =
  visible (snd (displayResults data st)).
Proof.
  intros Hinv. destruct (display_paint data) as (r & p & Hp).
  rewrite (Hp st). simpl. rewrite (cleared_blank st Hinv).
  rewrite Hp. simpl.
  rewrite (cleared_blank _ (chart_inv_paint p (next_ref st))).
  split; [reflexivity | apply visible_paint].
Qed.

(** C7. Wherever the page stands after a sequence of renders and
    clears, rendering a payload twice gives the same outcome and leaves
    the same visible page as rendering it once: same markup, same cards
    (none twice), same chart display, same live chart configurations,
    of which there is at most one. *)
Theorem C7_render_twice_same_as_once
    (ops : list op) (markup display : string) (data : value) :
  let st := run ops (initial markup display) in
  let once := displayResults data st in
  let twice := displayResults data (snd once) in
  fst twice = fst once /\
  visible (snd twice) = visible (snd once) /\
  (length (live_charts (snd twice)) <= 1)%nat.
Proof.
  intros st once twice. subst once twice.
  assert (Hinv : chart_inv st) by (apply chart_inv_run, chart_inv_initial).
  destruct (render_twice_inv data st Hinv) as [Hout Hvis].
  split; [exact Hout|]. split; [exact Hvis|].
  apply chart_inv_at_most_one. do 2 apply chart_inv_displayResults. exact Hinv.
Qed.

(** C8. After any sequence of renders and clears from the loaded page,
    at most one Chart instance is live and it is the one the variable
    [resultsChart] refers to; [clearResults] leaves none live and the
    variable null; every render works on the page so cleared, so that
    an instance held before the render is destroyed before a new one is
    constructed and is not live afterwards. *)
Theorem C8_at_most_one_live_chart (ops : list op) (markup display : string) :
  let st := run ops (initial markup display) in
  chart_inv st /\
  (length (live_charts st) <= 1)%nat /\
  live_charts (snd (clearResults st)) = [] /\
  resultsChart (snd (clearResults st)) = None /\
  forall data,
    (exists r p, displayResults data st = (r, apply_paint p (snd (clearResults st)))) /\
    (length (live_charts (snd (displayResults data st))) <= 1)%nat /\
    forall r, resultsChart st = Some r ->
              ~ In r (map fst (live_charts (snd (displayResults data st)))).
Proof.
  intros st.
  assert (Hinv : chart_inv st) by (apply chart_inv_run, chart_inv_initial).
  split; [exact Hinv|]. split; [apply chart_inv_at_most_one, Hinv|].
  rewrite clearResults_cleared. simpl snd.
  rewrite (cleared_blank st Hinv). split; [reflexivity|]. split; [reflexivity|].
  intros data. split; [|split].
  - destruct (display_paint data) as (r & p & Hp). exists r, p.
    rewrite Hp, (cleared_blank st Hinv). reflexivity.
  - apply chart_inv_at_most_one, chart_inv_displayResults, Hinv.
  - intros r Hr. apply previous_chart_disposed; assumption.
Qed.

(** *** Claims on one entry *)

(** A [Similarity] that holds a value is shown under its own label,
    whatever [Variance] holds. *)
Lemma similarity_value_first (item : value) (d : Derived) :
  derive item = Ok d ->
  is_nullish (field item "Similarity") = false ->
  d_scoreType d = "Similarity" /\
  rbind (parseFloat (field item "Similarity")) (fun x => call_toFixed (VNum x) 4)
  = Ok (d_score d).
Proof.
  intros H Hsim.
  destruct (derive_inv item d H) as (_ & _ & _ & _ & _ & _ & _ & _ & Htype & Hscore).
  cbv zeta in Hscore.
  assert (Hu : is_undefined (field item "Similarity") = false)
    by (destruct (field item "Similarity"); try discriminate; reflexivity).
  assert (Hco : coalesce (field item "Similarity") (field item "Variance")
                = field item "Similarity")
    by (unfold coalesce; rewrite Hsim; reflexivity).
  rewrite Hu in Htype. rewrite Hco, Hu in Hscore. simpl in Htype, Hscore.
  destruct Hscore as (y & Hy & Hd). rewrite Hy, Hd. split; [exact Htype | reflexivity].
Qed.

Example both_scores_show_similarity :
  exists d, derive item_both_scores = Ok d /\
            d_scoreType d = "Similarity" /\ d_score d = "0.2500".
Proof. eexists. split; [vm_compute; reflexivity|]. split; reflexivity. Qed.

(** An entry without any field: the markers for rank, date, volume and
    score, and NaN for the prices. *)
Example empty_entry_card :
  rbind (derive (VObj ∅)) card_view =
  Ok {| cv_date := "N/A"; cv_rank := "N/A"; cv_open := "NaN"; cv_high := "NaN";
        cv_low := "NaN"; cv_close := "NaN"; cv_volume := "N/A";
        cv_scoreType := "Variance"; cv_score := "N/A" |}.
Proof. vm_compute. reflexivity. Qed.

(** C4, as amended. For every entry that [derive] accepts: when
    [Similarity] is neither undefined nor null the label is
    "Similarity" and the score is that field, parsed and passed to
    [toFixed(4)], a zero included; when [Similarity] is undefined and
    [Variance] is defined the label is "Variance" and the score is
    [Variance], parsed and passed to [toFixed(4)]; when both are
    undefined the score is the marker "N/A". A score that parses to a
    finite number below [10^21] in magnitude is written with exactly
    four decimals. *)
Theorem C4_score_label_and_value (item : value) (d : Derived) :
  derive item = Ok d ->
  let sim := field item "Similarity" in
  let var := field item "Variance" in
  (is_nullish sim = false ->
   d_scoreType d = "Similarity" /\
   exists y, parseFloat sim = Ok y /\ d_score d = Num.toFixed y 4 /\
             (Shape.fixed_range y = true -> Shape.has_decimals 4 (d_score d) = true)) /\
  (sim = VUndefined -> is_undefined var = false ->
   d_scoreType d = "Variance" /\
   exists y, parseFloat var = Ok y /\ d_score d = Num.toFixed y 4 /\
             (Shape.fixed_range y = true -> Shape.has_decimals 4 (d_score d) = true)) /\
  (sim = VUndefined -> var = VUndefined ->
   d_scoreType d = "Variance" /\ d_score d = "N/A").
Proof.
  intros H sim var.
  destruct (derive_inv item d H) as (_ & _ & _ & _ & _ & _ & _ & _ & Htype & Hscore).
  fold sim in Htype, Hscore. fold var in Hscore. cbv zeta in Hscore.
  split; [|split].
  - intros Hsim.
    assert (Hu : is_undefined sim = false) by (destruct sim; try discriminate; reflexivity).
    assert (Hco : coalesce sim var = sim) by (unfold coalesce; rewrite Hsim; reflexivity).
    rewrite Hu in Htype. rewrite Hco, Hu in Hscore. simpl in Htype, Hscore.
    split; [exact Htype|]. destruct Hscore as (y & Hy & Hd).
    exists y. repeat split; try assumption.
    intros Hr. rewrite Hd. apply toFixed_decimals; [exact Hr | lia].
  - intros Hsim Hvar. rewrite Hsim in Htype, Hscore.
    change (coalesce VUndefined var) with var in Hscore. rewrite Hvar in Hscore.
    simpl in Htype, Hscore. split; [exact Htype|].
    destruct Hscore as (y & Hy & Hd).
    exists y. repeat split; try assumption.
    intros Hr. rewrite Hd. apply toFixed_decimals; [exact Hr | lia].
  - intros Hsim Hvar. rewrite Hsim in Htype, Hscore. rewrite Hvar in Hscore.
    simpl in Htype, Hscore. split; assumption.
Qed.

(** C1, the code at an entry without prices. [parseFloat(undefined)]
    is NaN, which is not nullish, so [?? 0] keeps the NaN and the card
    of [{Variance: 0.5}] reads "NaN" in its four price metrics, where
    the claim has "0.00"; an unparsable string fares the same. *)
Theorem C1_absent_price_reads_NaN :
  price VUndefined = Ok (VNum Num.NaN) /\
  price (VStr "n/a") = Ok (VNum Num.NaN) /\
  call_toFixed (VNum Num.NaN) 2 = Ok "NaN" /\
  call_toFixed (VNum Num.zero) 2 = Ok "0.00" /\
  exists c,
    rbind (derive item_variance_only) card_view = Ok c /\
    cv_open c = "NaN" /\ cv_high c = "NaN" /\ cv_low c = "NaN" /\ cv_close c = "NaN" /\
    cv_scoreType c = "Variance" /\ cv_score c = "0.5000" /\
    forall st,
      displayResults (VArr [item_variance_only]) st =
      (Ok tt, append_cards [make_card c] (cleared st)).
Proof.
  split; [vm_compute; reflexivity|]. split; [vm_compute; reflexivity|].
  split; [vm_compute; reflexivity|]. split; [vm_compute; reflexivity|].
  eexists. split; [vm_compute; reflexivity|]. repeat split.
  intros st. rewrite displayResults_entries. reflexivity.
Qed.

(** C10, the code at an entry whose [Similarity] is null. The label
    test is [!== undefined], which null passes; the value is taken by
    [??], which null does not: the card of
    [{Similarity: null, Variance: 0.5}] is labelled "Similarity" and
    shows "0.5000", the value of [Variance]. *)
Theorem C10_null_similarity_shows_variance :
  is_undefined (field item_null_similarity "Similarity") = false /\
  is_undefined (field item_null_similarity "Variance") = false /\
  exists d,
    derive item_null_similarity = Ok d /\
    d_scoreType d = "Similarity" /\
    d_score d = "0.5000" /\
    rbind (parseFloat (field item_null_similarity "Variance"))
          (fun x => call_toFixed (VNum x) 4) = Ok (d_score d) /\
    rbind (parseFloat (field item_null_similarity "Similarity"))
          (fun x => call_toFixed (VNum x) 4) = Ok "NaN".
Proof.
  split; [reflexivity|]. split; [reflexivity|].
  eexists. split; [vm_compute; reflexivity|].
  split; [reflexivity|]. split; [reflexivity|].
  split; vm_compute; reflexivity.
Qed.

(** ** The rest of the script *)

(** *** The query string *)

Lemma string_forall_app (p : ascii -> bool) (a b : string) :
  string_forall p (a +:+ b) = string_forall p a && string_forall p b.
Proof.
  induction a as [|c r IH]; [reflexivity|].
  rewrite append_String. cbn [string_forall]. rewrite IH, andb_assoc. reflexivity.
Qed.

Lemma encode_byte_not_separator (c : ascii) :
  string_forall not_separator (encode_byte c) = true.
Proof. destruct c as [[] [] [] [] [] [] [] []]; reflexivity. Qed.

Lemma form_urlencode_not_separator (s : string) :
  string_forall not_separator (form_urlencode s) = true.
Proof.
  induction s as [|c r IH]; [reflexivity|].
  cbn [form_urlencode]. rewrite string_forall_app, encode_byte_not_separator, IH.
  reflexivity.
Qed.

Lemma decode_encode_byte (c : ascii) (r : string) :
  form_urldecode (encode_byte c +:+ r) = String c (form_urldecode r).
Proof. destruct c as [[] [] [] [] [] [] [] []]; reflexivity. Qed.

(** Decoding undoes encoding. *)
Lemma form_urldecode_encode (s : string) : form_urldecode (form_urlencode s) = s.
Proof.
  induction s as [|c r IH]; [reflexivity|].
  cbn [form_urlencode]. rewrite decode_encode_byte, IH. reflexivity.
Qed.

Lemma not_separator_amp (c : ascii) : not_separator c = true -> (c =? "&")%char = false.
Proof. unfold not_separator. destruct (c =? "&")%char; [discriminate | reflexivity]. Qed.

Lemma not_separator_eq (c : ascii) : not_separator c = true -> (c =? "=")%char = false.
Proof.
  unfold not_separator. destruct (c =? "=")%char; [|reflexivity].
  rewrite andb_false_r. discriminate.
Qed.

Lemma cut_at_separator (a b : string) :
  string_forall not_separator a = true ->
  cut "=" (a +:+ "=" +:+ b) = (a, b).
Proof.
  induction a as [|c r IH]; intros Ha.
  - reflexivity.
  - cbn [string_forall] in Ha. apply andb_prop in Ha as [Hc Hr].
    rewrite append_String. cbn [cut]. rewrite (not_separator_eq c Hc), (IH Hr).
    reflexivity.
Qed.

Lemma split_on_no_amp (a : string) :
  string_forall (fun c => negb (c =? "&")%char) a = true -> split_on "&" a = [a].
Proof.
  induction a as [|c r IH]; intros Ha; [reflexivity|].
  cbn [string_forall] in Ha. apply andb_prop in Ha as [Hc Hr].
  cbn [split_on]. destruct (c =? "&")%char; [discriminate|].
  rewrite (IH Hr). reflexivity.
Qed.

Lemma split_on_amp (a b : string) :
  string_forall (fun c => negb (c =? "&")%char) a = true ->
  split_on "&" (a +:+ "&" +:+ b) = a :: split_on "&" b.
Proof.
  induction a as [|c r IH]; intros Ha; [reflexivity|].
  cbn [string_forall] in Ha. apply andb_prop in Ha as [Hc Hr].
  rewrite append_String. cbn [split_on].
  destruct (c =? "&")%char; [discriminate|]. rewrite (IH Hr). reflexivity.
Qed.

Lemma not_separator_no_amp (s : string) :
  string_forall not_separator s = true ->
  string_forall (fun c => negb (c =? "&")%char) s = true.
Proof.
  induction s as [|c r IH]; [reflexivity|]. cbn [string_forall]. intros H.
  apply andb_prop in H as [Hc Hr]. rewrite (not_separator_amp c Hc), (IH Hr). reflexivity.
Qed.

Lemma encode_pair_no_amp (p : string * string) :
  string_forall (fun c => negb (c =? "&")%char) (encode_pair p) = true.
Proof.
  unfold encode_pair. rewrite !string_forall_app.
  rewrite (not_separator_no_amp _ (form_urlencode_not_separator (fst p))).
  rewrite (not_separator_no_amp _ (form_urlencode_not_separator (snd p))).
  reflexivity.
Qed.

Lemma encode_pair_not_empty (p : string * string) :
  String.eqb (encode_pair p) EmptyString = false.
Proof.
  unfold encode_pair. destruct (form_urlencode (fst p)) as [|c r]; reflexivity.
Qed.

Lemma parse_piece_encode_pair (p : string * string) : parse_piece (encode_pair p) = p.
Proof.
  unfold parse_piece, encode_pair.
  rewrite cut_at_separator by apply form_urlencode_not_separator.
  rewrite !form_urldecode_encode. destruct p; reflexivity.
Qed.

(** What [URLSearchParams] serializes, the parser of the format reads
    back: the same names and values, as many and in the same order,
    whatever bytes the values hold. *)
Lemma query_round_trip (params : list (string * string)) :
  parse_query (serialize params) = params.
Proof.
  unfold parse_query. induction params as [|p rest IH]; [reflexivity|].
  destruct rest as [|q rest'].
  - cbn [serialize]. rewrite (split_on_no_amp _ (encode_pair_no_amp p)).
    cbn [List.filter]. rewrite encode_pair_not_empty. cbn [negb map].
    rewrite parse_piece_encode_pair. reflexivity.
  - change (serialize (p :: q :: rest'))
      with (encode_pair p +:+ "&" +:+ serialize (q :: rest')).
    rewrite (split_on_amp _ _ (encode_pair_no_amp p)).
    cbn [List.filter]. rewrite encode_pair_not_empty. cbn [negb map].
    rewrite parse_piece_encode_pair, IH. reflexivity.
Qed.

(** *** Clearing and rendering together *)

Lemma cleared_cleared (st : State) : cleared (cleared st) = cleared st.
Proof. reflexivity. Qed.

(** X1. [clearResults] twice is [clearResults] once, and a render after
    a [clearResults], as each form handler does it, gives exactly the
    outcome and the state of the render alone. *)
Theorem X1_clear_then_render (data : value) (st : State) :
  snd (clearResults (snd (clearResults st))) = snd (clearResults st) /\
  displayResults data (snd (clearResults st)) = displayResults data st.
Proof.
  rewrite !clearResults_cleared. simpl snd. split; [reflexivity|].
  destruct (display_paint data) as (r & p & Hp).
  rewrite !Hp, cleared_cleared. reflexivity.
Qed.


Section ScriptFacts.

Variable API_URL : string.
Variable engineError : value -> JsError.

Lemma on_renderer_clearResults (blame : value) (pg : Page) :
  on_renderer engineError clearResults blame pg =
  (Returned tt, with_renderer (cleared (renderer pg)) pg).
Proof. unfold on_renderer. rewrite clearResults_cleared. reflexivity. Qed.

Lemma submit_start_page (pg : Page) :
  submit_start engineError pg =
  (Returned tt, with_renderer (cleared (renderer pg)) (with_spinner "block" pg)).
Proof.
  unfold submit_start, pbind, showLoading, update.
  rewrite on_renderer_clearResults. reflexivity.
Qed.

(** *** A form is submitted *)

(** X2. Submitting a form raises nothing, shows the spinner, clears the
    results and puts exactly one more request in flight, to the path of
    the form; the query of that request reads back as the parameters of
    the form with the values typed, [top_k] being 5 for the pattern and
    the date form, whatever bytes the values hold. *)
Theorem X2_submitted_request (pg : Page) :
  (forall open high low close,
      exists q,
        submit_pattern API_URL engineError open high low close pg =
        (Returned tt,
         with_pending (pending pg ++ [SearchRequest (API_URL +:+ "/api/search/pattern?" +:+ q)])
           (with_renderer (snd (clearResults (renderer pg))) (with_spinner "block" pg))) /\
        parse_query q =
        [("open_price", open); ("high_price", high); ("low_price", low);
         ("close_price", close); ("top_k", "5")]) /\
  (forall target,
      exists q,
        submit_date API_URL engineError target pg =
        (Returned tt,
         with_pending (pending pg ++ [SearchRequest (API_URL +:+ "/api/search/date?" +:+ q)])
           (with_renderer (snd (clearResults (renderer pg))) (with_spinner "block" pg))) /\
        parse_query q = [("target_date", target); ("top_k", "5")]) /\
  (forall top_k,
      exists q,
        submit_volatility API_URL engineError top_k pg =
        (Returned tt,
         with_pending
           (pending pg ++ [SearchRequest (API_URL +:+ "/api/search/volatility?" +:+ q)])
           (with_renderer (snd (clearResults (renderer pg))) (with_spinner "block" pg))) /\
        parse_query q = [("top_k", top_k)]).
Proof.
  rewrite clearResults_cleared. simpl snd.
  split; [|split]; intros; eexists; (split; [|apply query_round_trip]);
    unfold submit_pattern, submit_date, submit_volatility, pbind;
    rewrite submit_start_page; reflexivity.
Qed.

(** *** A search request settles *)

Lemma search_settled_transport (f : Fetched) (e : JsError) (pg : Page) :
  transport_error f = Some e ->
  search_settled engineError f pg =
  (Returned tt,
   with_spinner "none"
     (with_renderer (set_results_markup (search_failure e) (renderer pg))
        (log_error_entry {| log_label := None; log_error := e |} pg))).
Proof.
  destruct f as [e'|ok [e'|v]]; simpl; intros H; inversion H; subst; reflexivity.
Qed.

Lemma search_settled_json (ok : bool) (data : value) (pg : Page) :
  search_settled engineError (Responded ok (Json data)) pg =
  match displayResults data (renderer pg) with
  | (Ok _, st) => (Returned tt, with_spinner "none" (with_renderer st pg))
  | (Throw _, st) =>
      (Returned tt,
       with_spinner "none"
         (with_renderer (set_results_markup (search_failure (engineError data)) st)
            (log_error_entry {| log_label := None; log_error := engineError data |} pg)))
  end.
Proof.
  unfold search_settled, try_finally, try_catch, pbind, json_of, pret, on_renderer.
  destruct (displayResults data (renderer pg)) as [[[]|[]] st]; reflexivity.
Qed.

Lemma search_settled_returns (f : Fetched) (pg : Page) :
  fst (search_settled engineError f pg) = Returned tt /\
  spinner_display (snd (search_settled engineError f pg)) = "none".
Proof.
  destruct (transport_error f) as [e|] eqn:Ht.
  - rewrite (search_settled_transport f e pg Ht). split; reflexivity.
  - destruct f as [e|ok [e|data]]; try discriminate.
    rewrite search_settled_json.
    destruct (displayResults data (renderer pg)) as [[[]|[]] st]; split; reflexivity.
Qed.

(** X3. However its request settles (a rejected fetch, a body that is
    not JSON, an error payload, a payload on which [displayResults]
    raises), a search handler raises nothing and leaves the spinner
    hidden. *)
Theorem X3_settled_search_hides_spinner (f : Fetched) (pg : Page) :
  fst (search_settled engineError f pg) = Returned tt /\
  spinner_display (snd (search_settled engineError f pg)) = "none".
Proof. apply search_settled_returns. Qed.



#[local] Set Warnings "-clear-no-such-hyp".

(** *** A tab is clicked *)

Lemma alter_class_lookup (f : Elem -> Elem) (n : nat) (els : list Elem) :
  (forall el, el_id (f el) = el_id el /\ el_tab (f el) = el_tab el) ->
  length (alter f n els) = length els /\
  forall i el,
    els !! i = Some el ->
    exists el',
      alter f n els !! i = Some el' /\
      el_id el' = el_id el /\ el_tab el' = el_tab el /\
      el_classes el' = el_classes (if bool_decide (i = n) then f el else el).
Proof.
  intros Hf. split; [apply length_alter|].
  intros i el Hi. destruct (decide (i = n)) as [->|Hne].
  - rewrite list_lookup_alter_eq, Hi. simpl. exists (f el).
    rewrite bool_decide_eq_true_2 by reflexivity.
    destruct (Hf el) as [Hid Htab]. repeat split; assumption.
  - rewrite list_lookup_alter_ne by congruence. exists el.
    rewrite bool_decide_eq_false_2 by assumption. repeat split; assumption.
Qed.

Lemma deactivate_all_lookup (nodes : list nat) :
  forall els,
    length (deactivate_all nodes els) = length els /\
    forall i el,
      els !! i = Some el ->
      exists el',
        deactivate_all nodes els !! i = Some el' /\
        el_id el' = el_id el /\ el_tab el' = el_tab el /\
        forall c, c ∈ el_classes el' <-> c ∈ el_classes el /\ ~ (c = "active" /\ i ∈ nodes).
Proof.
  induction nodes as [|n ns IH]; intros els.
  - split; [reflexivity|]. intros i el Hi. exists el.
    split; [exact Hi|]. split; [reflexivity|]. split; [reflexivity|].
    intros c. split.
    + intros Hc. split; [exact Hc|]. intros [_ Hin]. apply elem_of_nil in Hin. exact Hin.
    + intros [Hc _]. exact Hc.
  - change (deactivate_all (n :: ns) els)
      with (deactivate_all ns (alter (remove_class "active") n els)).
    destruct (alter_class_lookup (remove_class "active") n els) as [Hlen Hstep];
      [intros el; split; reflexivity|].
    destruct (IH (alter (remove_class "active") n els)) as [Hlen' Hrest].
    split; [congruence|]. intros i el Hi.
    destruct (Hstep i el Hi) as (el1 & Hi1 & Hid1 & Htab1 & Hcl1).
    destruct (Hrest i el1 Hi1) as (el2 & Hi2 & Hid2 & Htab2 & Hcl2).
    exists el2. split; [exact Hi2|]. split; [congruence|]. split; [congruence|].
    intros c. rewrite Hcl2, Hcl1, elem_of_cons.
    case_bool_decide; simpl; set_solver.
Qed.

Lemma find_id_same_ids (key : string) (els els' : list Elem) :
  length els' = length els ->
  (forall i el, els !! i = Some el ->
                exists el', els' !! i = Some el' /\ el_id el' = el_id el) ->
  getElementById key els' = getElementById key els.
Proof.
  intros Hlen Hids. unfold getElementById.
  assert (Hmap : map el_id els' = map el_id els); [|rewrite Hmap; reflexivity].
  apply list_eq. intros i. rewrite !list_lookup_fmap.
  destruct (els !! i) as [el|] eqn:Hi.
  - destruct (Hids i el Hi) as (el' & Hi' & Hid). rewrite Hi'. simpl. congruence.
  - apply lookup_ge_None in Hi. rewrite (proj2 (lookup_ge_None els' i)) by lia.
    reflexivity.
Qed.

Lemma dataset_tab_same (t : nat) (els els' : list Elem) :
  length els' = length els ->
  (forall i el, els !! i = Some el ->
                exists el', els' !! i = Some el' /\ el_tab el' = el_tab el) ->
  dataset_tab t els' = dataset_tab t els.
Proof.
  intros Hlen Htabs. unfold dataset_tab.
  destruct (els !! t) as [el|] eqn:Ht.
  - destruct (Htabs t el Ht) as (el' & Ht' & Htab). rewrite Ht', Htab. reflexivity.
  - apply lookup_ge_None in Ht. rewrite (proj2 (lookup_ge_None els' t)) by lia.
    reflexivity.
Qed.

(** The elements once the listener has taken "active" off every tab and
    pane and put it on the tab clicked: lines 19-23. *)
Lemma tab_marked (t : nat) (pg : Page) :
  let els := alter (add_class "active") t
               (deactivate_all (tabPanes pg) (deactivate_all (tabs pg) (elements pg))) in
  length els = length (elements pg) /\
  forall i el,
    elements pg !! i = Some el ->
    exists el',
      els !! i = Some el' /\
      el_id el' = el_id el /\ el_tab el' = el_tab el /\
      (forall c, c <> "active" -> (c ∈ el_classes el' <-> c ∈ el_classes el)) /\
      ("active" ∈ el_classes el' <->
       i = t \/ ("active" ∈ el_classes el /\ ~ i ∈ tabs pg /\ ~ i ∈ tabPanes pg)).
Proof.
  intros els. subst els.
  destruct (deactivate_all_lookup (tabs pg) (elements pg)) as [Hl1 H1].
  destruct (deactivate_all_lookup (tabPanes pg) (deactivate_all (tabs pg) (elements pg)))
    as [Hl2 H2].
  destruct (alter_class_lookup (add_class "active") t
              (deactivate_all (tabPanes pg) (deactivate_all (tabs pg) (elements pg))))
    as [Hl3 H3]; [intros el; split; reflexivity|].
  split; [congruence|]. intros i el Hi.
  destruct (H1 i el Hi) as (el1 & Hi1 & Hid1 & Htab1 & Hcl1).
  destruct (H2 i el1 Hi1) as (el2 & Hi2 & Hid2 & Htab2 & Hcl2).
  destruct (H3 i el2 Hi2) as (el3 & Hi3 & Hid3 & Htab3 & Hcl3).
  exists el3. split; [exact Hi3|]. split; [congruence|]. split; [congruence|].
  rewrite Hcl3. split.
  - intros c Hc. case_bool_decide; simpl; rewrite ?elem_of_union, Hcl2, Hcl1; set_solver.
  - case_bool_decide; simpl; rewrite ?elem_of_union, Hcl2, Hcl1; set_solver.
Qed.

Lemma tab_click_run (t : nat) (pg : Page) :
  let els := alter (add_class "active") t
               (deactivate_all (tabPanes pg) (deactivate_all (tabs pg) (elements pg))) in
  tab_click engineError t pg =
  match getElementById (dataset_tab t (elements pg)) (elements pg) with
  | None => (Raised (engineError VNull), with_elements els pg)
  | Some target =>
      (Returned tt,
       with_renderer (cleared (renderer pg))
         (with_elements (alter (add_class "active") target els) pg))
  end.
Proof.
  intros els. destruct (tab_marked t pg) as [Hlen Hlook]. fold els in Hlen, Hlook.
  assert (Hkey : dataset_tab t els = dataset_tab t (elements pg)).
  { apply dataset_tab_same; [exact Hlen|]. intros i el Hi.
    destruct (Hlook i el Hi) as (el' & Hi' & _ & Htab & _). eauto. }
  assert (Hget : forall key, getElementById key els = getElementById key (elements pg)).
  { intros key. apply find_id_same_ids; [exact Hlen|]. intros i el Hi.
    destruct (Hlook i el Hi) as (el' & Hi' & Hid & _). eauto. }
  unfold tab_click, pbind, update. cbn [elements with_elements tabs tabPanes].
  fold els. rewrite Hkey, Hget.
  destruct (getElementById (dataset_tab t (elements pg)) (elements pg)) as [target|];
    [|reflexivity].
  cbn [elements with_elements]. rewrite on_renderer_clearResults. reflexivity.
Qed.

(** X6. A click on a tab whose [data-tab] names an element of the page
    raises nothing and leaves "active" on the tab clicked and on the
    element named, on no other tab and no other pane; no other class, ID
    or attribute changes; the results are cleared as by [clearResults]. *)
Theorem X6_tab_click_activates (t target : nat) (pg : Page) :
  getElementById (dataset_tab t (elements pg)) (elements pg) = Some target ->
  let r := tab_click engineError t pg in
  fst r = Returned tt /\
  renderer (snd r) = snd (clearResults (renderer pg)) /\
  length (elements (snd r)) = length (elements pg) /\
  forall i el,
    elements pg !! i = Some el ->
    exists el',
      elements (snd r) !! i = Some el' /\
      el_id el' = el_id el /\ el_tab el' = el_tab el /\
      (forall c, c <> "active" -> (c ∈ el_classes el' <-> c ∈ el_classes el)) /\
      ("active" ∈ el_classes el' <->
       i = t \/ i = target \/
       ("active" ∈ el_classes el /\ ~ i ∈ tabs pg /\ ~ i ∈ tabPanes pg)).
Proof.
  intros Htarget r. subst r. rewrite tab_click_run, Htarget.
  rewrite clearResults_cleared. cbn [fst snd renderer with_renderer elements with_elements].
  destruct (tab_marked t pg) as [Hlen Hlook].
  destruct (alter_class_lookup (add_class "active") target
              (alter (add_class "active") t
                 (deactivate_all (tabPanes pg) (deactivate_all (tabs pg) (elements pg)))))
    as [Hlen' Hstep]; [intros el; split; reflexivity|].
  split; [reflexivity|]. split; [reflexivity|]. split; [congruence|].
  intros i el Hi.
  destruct (Hlook i el Hi) as (el1 & Hi1 & Hid1 & Htab1 & Hother1 & Hactive1).
  destruct (Hstep i el1 Hi1) as (el2 & Hi2 & Hid2 & Htab2 & Hcl2).
  exists el2. split; [exact Hi2|]. split; [congruence|]. split; [congruence|].
  rewrite Hcl2. split.
  - intros c Hc. rewrite <- (Hother1 c Hc). case_bool_decide; simpl; set_solver.
  - case_bool_decide; simpl; rewrite ?elem_of_union, Hactive1; set_solver.
Qed.

(** X7. A click on a tab whose [data-tab] names no element raises the
    engine's TypeError after the tabs and panes have lost "active" and
    the tab clicked has got it: no pane is active, and the results and
    the chart are left as they were, not cleared. *)
Theorem X7_tab_click_without_target (t : nat) (pg : Page) :
  getElementById (dataset_tab t (elements pg)) (elements pg) = None ->
  let r := tab_click engineError t pg in
  fst r = Raised (engineError VNull) /\
  renderer (snd r) = renderer pg /\
  forall i el,
    elements pg !! i = Some el ->
    exists el',
      elements (snd r) !! i = Some el' /\
      ("active" ∈ el_classes el' <->
       i = t \/ ("active" ∈ el_classes el /\ ~ i ∈ tabs pg /\ ~ i ∈ tabPanes pg)).
Proof.
  intros Htarget r. subst r. rewrite tab_click_run, Htarget.
  cbn [fst snd renderer elements with_elements].
  split; [reflexivity|]. split; [reflexivity|].
  intros i el Hi. destruct (tab_marked t pg) as [_ Hlook].
  destruct (Hlook i el Hi) as (el' & Hi' & _ & _ & _ & Hactive). eauto.
Qed.

(** *** The date list is loaded *)

Lemma outside_date_list_refl (pg : Page) : outside_date_list pg pg.
Proof. repeat split. Qed.

Lemma append_dates_frame (items : list value) :
  forall pg,
    outside_date_list pg (snd (append_dates engineError items pg)) /\
    console (snd (append_dates engineError items pg)) = console pg /\
    date_markup (snd (append_dates engineError items pg)) = date_markup pg.
Proof.
  induction items as [|date rest IH]; intros pg.
  - split; [apply outside_date_list_refl | split; reflexivity].
  - cbn [append_dates]. unfold pbind.
    destruct (make_option date) as [o|[]]; cbn [update raise];
      [|split; [apply outside_date_list_refl | split; reflexivity]].
    destruct (IH (append_option o pg)) as (Hout & Hcon & Hmark).
    split; [|split; assumption]. exact Hout.
Qed.

Lemma append_dates_ok (items : list value) :
  forallb (fun date => match make_option date with Ok _ => true | Throw _ => false end)
          items = true ->
  forall pg,
    exists opts,
      Forall2 (fun date o => make_option date = Ok o) items opts /\
      fst (append_dates engineError items pg) = Returned tt /\
      date_options (snd (append_dates engineError items pg)) = (date_options pg ++ opts)%list.
Proof.
  induction items as [|date rest IH]; intros Hok pg.
  - exists []. split; [constructor|]. split; [reflexivity|].
    cbn. rewrite app_nil_r. reflexivity.
  - cbn [forallb] in Hok. apply andb_prop in Hok as [Hdate Hrest].
    cbn [append_dates]. unfold pbind.
    destruct (make_option date) as [o|] eqn:Ho; [|discriminate]. cbn [update].
    destruct (IH Hrest (append_option o pg)) as (opts & Hopts & Hret & Hlist).
    exists (o :: opts). split; [constructor; assumption|]. split; [exact Hret|].
    rewrite Hlist. cbn [date_options append_option]. rewrite <- app_assoc. reflexivity.
Qed.

Lemma append_dates_fail (items : list value) :
  forallb (fun date => match make_option date with Ok _ => true | Throw _ => false end)
          items = false ->
  forall pg, exists e, fst (append_dates engineError items pg) = Raised e.
Proof.
  induction items as [|date rest IH]; intros Hbad pg; [discriminate|].
  cbn [forallb] in Hbad. cbn [append_dates]. unfold pbind.
  destruct (make_option date) as [o|[]] eqn:Ho; cbn [update raise].
  - simpl in Hbad. apply (IH Hbad).
  - eexists. reflexivity.
Qed.

Lemma loadDates_settled_array (items : list value) (pg : Page) :
  loadDates_settled engineError (Responded true (Json (VArr items))) pg =
  match append_dates engineError items (set_date_markup date_placeholder pg) with
  | (Returned _, pg') => (Returned tt, pg')
  | (Raised e, pg') =>
      (Returned tt,
       set_date_markup date_failure
         (log_error_entry {| log_label := Some "Error loading dates:"; log_error := e |} pg'))
  end.
Proof.
  unfold loadDates_settled, try_catch, pbind, json_of, pret, update, dates_forEach.
  cbn [negb].
  destruct (append_dates engineError items (set_date_markup date_placeholder pg))
    as [[[]|e] pg']; reflexivity.
Qed.

(** Whatever the response, [loadDates] raises nothing and touches only
    the date list and the console. *)
Lemma loadDates_settled_frame (f : Fetched) (pg : Page) :
  fst (loadDates_settled engineError f pg) = Returned tt /\
  outside_date_list pg (snd (loadDates_settled engineError f pg)).
Proof.
  destruct f as [e|[] [e|[| | b | x | s | items | props]]];
    try (split; [reflexivity | repeat split; reflexivity]).
  rewrite loadDates_settled_array.
  destruct (append_dates_frame items (set_date_markup date_placeholder pg)) as (Hout & _).
  destruct (append_dates engineError items (set_date_markup date_placeholder pg))
    as [[[]|e] pg']; (split; [reflexivity | exact Hout]).
Qed.

(** X8. When the dates request is answered with status ok and an array
    whose entries convert to strings, [loadDates] raises nothing and the
    list holds the placeholder followed by one option per entry, in the
    order received; for an entry that is a string, value and label are
    that string. Nothing is logged and nothing else on the page changes. *)
Theorem X8_dates_listed (f : Fetched) (pg : Page) :
  dates_ok f = true ->
  let r := loadDates_settled engineError f pg in
  exists items,
    f = Responded true (Json (VArr items)) /\
    fst r = Returned tt /\
    date_markup (snd r) = date_placeholder /\
    Forall2 (fun date o =>
               make_option date = Ok o /\
               forall name, date = VStr name ->
                            o = {| opt_value := name; opt_text := name |})
            items (date_options (snd r)) /\
    console (snd r) = console pg /\
    outside_date_list pg (snd r).
Proof.
  intros Hok r. subst r.
  destruct f as [e|[] [e|[| | b | x | s | items | props]]]; try discriminate.
  exists items. split; [reflexivity|]. simpl in Hok.
  rewrite loadDates_settled_array.
  destruct (append_dates_ok items Hok (set_date_markup date_placeholder pg))
    as (opts & Hopts & Hret & Hlist).
  destruct (append_dates_frame items (set_date_markup date_placeholder pg))
    as (Hout & Hcon & Hmark).
  destruct (append_dates engineError items (set_date_markup date_placeholder pg))
    as [[[]|e] pg']; simpl in *; [|discriminate].
  split; [reflexivity|]. split; [exact Hmark|]. split; [|split; assumption].
  rewrite Hlist. clear -Hopts. induction Hopts as [|date o items opts Ho _ IH];
    constructor; [|exact IH].
  split; [exact Ho|]. intros name ->. cbn in Ho. congruence.
Qed.

(** X9. When the dates request fails in any way (fetch rejected, status
    not ok, body not JSON, body not an array, an entry that does not
    convert), [loadDates] raises nothing: the list holds exactly the
    could-not-load option, the options appended before the failure are
    gone, the error is logged once under its label, and nothing else on
    the page changes. *)
Theorem X9_dates_failure (f : Fetched) (pg : Page) :
  dates_ok f = false ->
  let r := loadDates_settled engineError f pg in
  fst r = Returned tt /\
  date_markup (snd r) = date_failure /\
  date_options (snd r) = [] /\
  (exists e,
      console (snd r) =
      (console pg ++ [{| log_label := Some "Error loading dates:"; log_error := e |}])%list) /\
  outside_date_list pg (snd r).
Proof.
  intros Hbad r. subst r.
  destruct f as [e|[] [e|[| | b | x | s | items | props]]];
    try (cbn; repeat split; eauto; fail).
  simpl in Hbad. rewrite loadDates_settled_array.
  destruct (append_dates_fail items Hbad (set_date_markup date_placeholder pg)) as [e He].
  destruct (append_dates_frame items (set_date_markup date_placeholder pg))
    as (Hout & Hcon & Hmark).
  destruct (append_dates engineError items (set_date_markup date_placeholder pg))
    as [[[]|e'] pg']; simpl in *; [discriminate|].
  split; [reflexivity|]. split; [reflexivity|]. split; [reflexivity|].
  split; [exists e'; rewrite Hcon; reflexivity | exact Hout].
Qed.

(** *** Any sequence of events *)

Lemma fetch_page (req : request) (pg : Page) :
  fetch req pg = (Returned tt, with_pending (pending pg ++ [req]) pg).
Proof. reflexivity. Qed.

Lemma submit_page (path : string) (params : list (string * string)) (pg : Page) :
  pbind (submit_start engineError)
        (fun _ => fetch (SearchRequest (request_url API_URL path params))) pg =
  (Returned tt,
   with_pending (pending pg ++ [SearchRequest (request_url API_URL path params)])
     (with_renderer (cleared (renderer pg)) (with_spinner "block" pg))).
Proof. unfold pbind. rewrite submit_start_page. reflexivity. Qed.

(** What an event can do to the renderer's state: nothing, a clear, a
    render, or a message written over either. *)
Lemma react_renderer (pg : Page) (ev : event) :
  let st := renderer pg in
  let st' := renderer (react API_URL engineError pg ev) in
  st' = st \/ st' = cleared st \/
  (exists m, st' = set_results_markup m st) \/
  exists data,
    st' = snd (displayResults data st) \/
    exists m, st' = set_results_markup m (snd (displayResults data st)).
Proof.
  intros st st'. subst st st'. unfold react.
  destruct ev as [t | o h l c | target | k | i f]; cbn [handle].
  - case_bool_decide; [|left; reflexivity].
    rewrite tab_click_run.
    destruct (getElementById _ _); [right; left | left]; reflexivity.
  - unfold submit_pattern. rewrite submit_page. right. left. reflexivity.
  - unfold submit_date. rewrite submit_page. right. left. reflexivity.
  - unfold submit_volatility. rewrite submit_page. right. left. reflexivity.
  - unfold settle. destruct (pending pg !! i) as [[url|url]|]; [| |left; reflexivity].
    + destruct (transport_error f) as [e|] eqn:Ht.
      * rewrite (search_settled_transport f e _ Ht). right. right. left.
        eexists. reflexivity.
      * destruct f as [e|ok [e|data]]; try discriminate.
        rewrite search_settled_json. cbn [renderer with_pending].
        right. right. right. exists data.
        destruct (displayResults data (renderer pg)) as [[[]|[]] st] eqn:Hrun; cbn.
        -- left. reflexivity.
        -- right. eexists. reflexivity.
    + left.
      destruct (loadDates_settled_frame f (with_pending (delete i (pending pg)) pg))
        as [_ [Hout _]]. exact Hout.
Qed.

Lemma chart_inv_set_results_markup (m : string) (st : State) :
  chart_inv st -> chart_inv (set_results_markup m st).
Proof. intros H. exact H. Qed.

Lemma chart_inv_react (pg : Page) (ev : event) :
  chart_inv (renderer pg) -> chart_inv (renderer (react API_URL engineError pg ev)).
Proof.
  intros Hinv.
  destruct (react_renderer pg ev) as [-> | [-> | [[m ->] | [data [-> | [m ->]]]]]].
  - exact Hinv.
  - rewrite (cleared_blank _ Hinv). apply chart_inv_blank.
  - apply chart_inv_set_results_markup, Hinv.
  - apply chart_inv_displayResults, Hinv.
  - apply chart_inv_set_results_markup, chart_inv_displayResults, Hinv.
Qed.

Lemma chart_inv_play (evs : list event) :
  forall pg, chart_inv (renderer pg) ->
             chart_inv (renderer (play API_URL engineError evs pg)).
Proof.
  induction evs as [|ev evs IH]; intros pg Hinv; [exact Hinv|].
  apply IH, chart_inv_react, Hinv.
Qed.

(** X10. After any sequence of tab clicks, submissions and settling
    requests, in any order, at most one Chart instance is live, and it
    is the one [resultsChart] refers to. *)
Theorem X10_page_keeps_one_chart
    (evs : list event) (els : list Elem) (results chart spinner dates : string) :
  let pg := play API_URL engineError evs (loaded API_URL els results chart spinner dates) in
  chart_inv (renderer pg) /\ (length (live_charts (renderer pg)) <= 1)%nat.
Proof.
  intros pg.
  assert (Hinv : chart_inv (renderer pg)) by (apply chart_inv_play, chart_inv_initial).
  split; [exact Hinv | apply chart_inv_at_most_one, Hinv].
Qed.

(** The visible result of rendering a payload is the same from any two
    pages that keep the chart invariant. *)
Lemma settled_json_visible (ok : bool) (data : value) (pg1 pg2 : Page) :
  chart_inv (renderer pg1) -> chart_inv (renderer pg2) ->
  visible (renderer (snd (search_settled engineError (Responded ok (Json data)) pg1))) =
  visible (renderer (snd (search_settled engineError (Responded ok (Json data)) pg2))).
Proof.
  intros H1 H2. rewrite !search_settled_json.
  destruct (display_paint data) as (r & p & Hp).
  rewrite !Hp, (cleared_blank _ H1), (cleared_blank _ H2).
  destruct r as [[]|[]]; cbn [snd renderer with_renderer with_spinner log_error_entry].
  - apply visible_paint.
  - destruct p; reflexivity.
Qed.

(** X11. When a response carrying JSON arrives, what the results and the
    chart show afterwards depends on that payload only: it is the same
    whatever was submitted, rendered or clicked before, so the response
    that settles last is the one displayed. *)
Theorem X11_last_response_wins
    (evs1 evs2 : list event) (els1 els2 : list Elem)
    (results1 chart1 spinner1 dates1 results2 chart2 spinner2 dates2 : string)
    (ok : bool) (data : value) :
  let pg1 := play API_URL engineError evs1
               (loaded API_URL els1 results1 chart1 spinner1 dates1) in
  let pg2 := play API_URL engineError evs2
               (loaded API_URL els2 results2 chart2 spinner2 dates2) in
  visible (renderer (snd (search_settled engineError (Responded ok (Json data)) pg1))) =
  visible (renderer (snd (search_settled engineError (Responded ok (Json data)) pg2))).
Proof.
  intros pg1 pg2.
  apply settled_json_visible; apply chart_inv_play, chart_inv_initial.
Qed.

(** *** The spinner *)

Lemma Exists_delete_other (l : list request) (i : nat) (req : request) :
  l !! i = Some req -> is_search req = false ->
  Exists (fun r => is_search r = true) l ->
  Exists (fun r => is_search r = true) (delete i l).
Proof.
  revert i. induction l as [|x l IH]; intros i Hi Hreq Hex; [inversion Hex|].
  destruct i as [|i]; simpl in *.
  - injection Hi as ->. inversion Hex as [? ? Hx | ? ? Hl]; subst; [congruence | exact Hl].
  - inversion Hex as [? ? Hx | ? ? Hl]; subst.
    + apply Exists_cons_hd, Hx.
    + apply Exists_cons_tl. apply (IH i Hi Hreq Hl).
Qed.

Lemma spinner_react (pg : Page) (ev : event) :
  (spinner_display pg = "block" -> Exists (fun r => is_search r = true) (pending pg)) ->
  spinner_display (react API_URL engineError pg ev) = "block" ->
  Exists (fun r => is_search r = true) (pending (react API_URL engineError pg ev)).
Proof.
  intros Hinv. unfold react.
  destruct ev as [t | o h l c | target | k | i f]; cbn [handle].
  - case_bool_decide; [|exact Hinv].
    rewrite tab_click_run. destruct (getElementById _ _); exact Hinv.
  - unfold submit_pattern. rewrite submit_page. intros _.
    apply List.Exists_app. right. constructor. reflexivity.
  - unfold submit_date. rewrite submit_page. intros _.
    apply List.Exists_app. right. constructor. reflexivity.
  - unfold submit_volatility. rewrite submit_page. intros _.
    apply List.Exists_app. right. constructor. reflexivity.
  - unfold settle. destruct (pending pg !! i) as [[url|url]|] eqn:Hi; [| |exact Hinv].
    + destruct (search_settled_returns f (with_pending (delete i (pending pg)) pg)) as [_ Hnone].
      rewrite Hnone. discriminate.
    + destruct (loadDates_settled_frame f (with_pending (delete i (pending pg)) pg))
        as (_ & _ & Hspin & _ & _ & _ & Hpend).
      rewrite Hspin, Hpend. cbn [spinner_display pending with_pending].
      intros Hblock. apply (Exists_delete_other _ i (DatesRequest url) Hi eq_refl), Hinv, Hblock.
Qed.

(** X12. If the spinner was not showing when the page loaded, then after
    any sequence of events it shows only while a search request is in
    flight: no settled or failed request leaves it spinning. *)
Theorem X12_spinner_means_request_in_flight
    (evs : list event) (els : list Elem) (results chart spinner dates : string) :
  spinner <> "block" ->
  let pg := play API_URL engineError evs (loaded API_URL els results chart spinner dates) in
  spinner_display pg = "block" ->
  Exists (fun req => is_search req = true) (pending pg).
Proof.
  intros Hspinner pg. subst pg.
  assert (Hgen : forall pg0,
    (spinner_display pg0 = "block" -> Exists (fun r => is_search r = true) (pending pg0)) ->
    spinner_display (play API_URL engineError evs pg0) = "block" ->
    Exists (fun r => is_search r = true) (pending (play API_URL engineError evs pg0))).
  { induction evs as [|ev evs IH]; intros pg0 Hinv; [exact Hinv|].
    cbn [play fold_left]. apply IH. apply spinner_react, Hinv. }
  apply Hgen. cbn [spinner_display loaded]. intros Hblock. contradiction.
Qed.

End ScriptFacts.

End Renderer.

(** ** The claims at sample payloads *)





(** [{Similarity: 0}] displays "0.0000" under the label "Similarity". *)
Lemma C4_zero_similarity :
  exists d,
    derive EnUS.format item_zero_similarity = Ok d /\
    d_scoreType d = "Similarity" /\ d_score d = "0.0000".
Proof.
  destruct (derive EnUS.format item_zero_similarity) as [d|e] eqn:H;
    [|vm_compute in H; discriminate].
  exists d. split; [reflexivity|].
  destruct (C4_score_label_and_value EnUS.format item_zero_similarity d H) as [Hsim _].
  destruct (Hsim eq_refl) as (Htype & y & Hy & Hscore & _).
  split; [exact Htype|]. rewrite Hscore.
  vm_compute in Hy. injection Hy as <-. vm_compute. reflexivity.
Defined.

(** C4, as stated, at [{Similarity: 1e21}]: the score is numeric and
    present, and is written "1e+21", with no decimals. *)
Lemma C4_huge_similarity_has_no_decimals :
  exists d,
    derive EnUS.format item_huge_similarity = Ok d /\
    d_scoreType d = "Similarity" /\
    d_score d = "1e+21" /\
    Shape.has_decimals 4 (d_score d) = false.
Proof.
  eexists. split; [vm_compute; reflexivity|]. repeat split.
Qed.

(** A priced entry followed by a variance-only entry: two cards, the
    chart shown, and one bar group, that of the priced entry. *)
Lemma C5_sample_chart :
  exists st' cfg,
    displayResults EnUS.format payload_results (initial EmptyString EmptyString) = (Ok tt, st') /\
    length (results_cards st') = 2%nat /\
    chart_display st' = "block" /\
    live_charts st' = [(O, cfg)] /\
    chart_type cfg = "bar" /\
    chart_labels cfg = ["Rank 1 (2023-01-01)"] /\
    map ds_label (chart_datasets cfg) = ["Open"; "High"; "Low"; "Close"] /\
    map ds_data (chart_datasets cfg) =
      [ [VNum (Num.of_decimal false 15025 (-2))]; [VNum (Num.of_decimal false 1555 (-1))];
        [VNum (Num.of_decimal false 14975 (-2))]; [VNum (Num.of_Z 152)] ].
Proof.
  destruct (C5_chart_of_entries_with_open EnUS.format [item_full; item_variance_only]
              (initial EmptyString EmptyString))
    as (st' & Hrun & Hcards & _ & Hshown & _);
    [discriminate | vm_compute; reflexivity |].
  pose proof Hrun as Hst. vm_compute in Hst. injection Hst as Hst.
  exists st'. eexists. split; [exact Hrun|]. split; [exact Hcards|].
  split; [apply Hshown; left; reflexivity|].
  rewrite <- Hst. split; [reflexivity|].
  repeat split; vm_compute; reflexivity.
Defined.

(** The same result set has its two cards: that of the priced entry,
    then that of the variance-only entry, whose missing fields read N/A
    and whose missing prices read NaN. *)
Lemma C6_sample_cards :
  exists st' first second,
    displayResults EnUS.format payload_results (initial EmptyString EmptyString) = (Ok tt, st') /\
    results_cards st' = [first; second] /\
    className first = "result-card" /\
    holds_in_order
      [ "<h3>2023-01-01</h3>"; ">Rank 1</span>"; ">Open<strong>150.25</strong>";
        ">High<strong"; ">155.50</strong>"; ">Low<strong"; ">149.75</strong>";
        ">Close<strong>152.00</strong>"; ">Volume<strong>1,000,000</strong>";
        "<span>Similarity:</span> 0.9731</div>" ] (innerHTML first) = true /\
    className second = "result-card" /\
    holds_in_order
      [ "<h3>N/A</h3>"; ">Rank N/A</span>"; ">Open<strong>NaN</strong>";
        ">High<strong"; ">NaN</strong>"; ">Low<strong"; ">NaN</strong>";
        ">Close<strong>NaN</strong>"; ">Volume<strong>N/A</strong>";
        "<span>Variance:</span> 0.5000</div>" ] (innerHTML second) = true.
Proof.
  destruct (C6_one_card_per_entry EnUS.format [item_full; item_variance_only]
              (initial EmptyString EmptyString))
    as (st' & Hrun & _ & _ & Hcards); [simpl; lia | vm_compute; reflexivity |].
  inversion Hcards as [|i1 first l1 cards1 (t1 & Ht1 & Hc1 & _ & Hp1) Hrest E1 E2].
  inversion Hrest as [|i2 second l2 cards2 (t2 & Ht2 & Hc2 & _ & Hp2) Hnil E3 E4].
  inversion Hnil as [E5 E6|].
  exists st', first, second. split; [exact Hrun|].
  split; [rewrite <- E2, <- E4, <- E6; reflexivity|].
  vm_compute in Ht1. injection Ht1 as <-.
  vm_compute in Ht2. injection Ht2 as <-.
  split; [exact Hc1|]. split; [exact Hp1|]. split; [exact Hc2 | exact Hp2].
Defined.

(** The empty array shows the placeholder. *)
Lemma C9_empty_array :
  exists st',
    displayResults EnUS.format (VArr []) (initial EmptyString EmptyString) = (Ok tt, st') /\
    results_markup st' = no_results_markup /\ results_cards st' = [] /\
    chart_display st' = "none" /\ resultsChart st' = None.
Proof.
  apply (C9_no_results_placeholder EnUS.format (VArr []) (initial EmptyString EmptyString));
    [reflexivity | reflexivity | right; reflexivity].
Defined.

(** C9, as stated, at the payload [null]: it has no [detail] and is not
    an array, and the render raises a TypeError before any placeholder is
    written. *)
Lemma C9_null_payload_shows_nothing :
  field VNull "detail" = VUndefined /\ isArray VNull = false /\
  exists st',
    displayResults EnUS.format VNull (initial EmptyString EmptyString) = (Throw TypeError, st') /\
    results_markup st' = EmptyString /\
    results_markup st' <> no_results_markup.
Proof.
  split; [reflexivity|]. split; [reflexivity|].
  eexists. split; [vm_compute; reflexivity|]. split; [reflexivity | discriminate].
Qed.

(** ** The properties of the script at sample pages *)



(** A click on the second tab of the sample document, whose pane is the
    fifth element. *)
Lemma X6_second_tab :
  fst (tab_click sample_engine_error 1 sample_page) = Returned tt /\
  map is_active (elements (snd (tab_click sample_engine_error 1 sample_page)))
  = [false; true; false; false; true].
Proof.
  split.
  - apply (X6_tab_click_activates sample_engine_error 1 4 sample_page). reflexivity.
  - vm_compute. reflexivity.
Defined.

(** A click on the third tab, whose pane does not exist. *)
Lemma X7_third_tab :
  fst (tab_click sample_engine_error 2 sample_page) = Raised (sample_engine_error VNull) /\
  renderer (snd (tab_click sample_engine_error 2 sample_page)) = renderer sample_page.
Proof.
  destruct (X7_tab_click_without_target sample_engine_error 2 sample_page)
    as (Hraised & Hkept & _); [reflexivity|].
  split; assumption.
Defined.

(** Two dates received. *)
Lemma X8_two_dates :
  date_options (snd (loadDates_settled sample_engine_error sample_dates sample_page))
  = [ {| opt_value := "2023-01-01"; opt_text := "2023-01-01" |};
      {| opt_value := "2023-01-02"; opt_text := "2023-01-02" |} ].
Proof.
  destruct (X8_dates_listed sample_engine_error sample_dates sample_page)
    as (items & _ & _ & _ & _ & _ & _); [reflexivity|].
  vm_compute. reflexivity.
Defined.

(** A response whose status is not ok. *)
Lemma X9_status_not_ok :
  date_markup (snd (loadDates_settled sample_engine_error
                      (Responded false (Json (VArr []))) sample_page)) = date_failure /\
  date_options (snd (loadDates_settled sample_engine_error
                       (Responded false (Json (VArr []))) sample_page)) = [].
Proof.
  destruct (X9_dates_failure sample_engine_error (Responded false (Json (VArr [])))
              sample_page) as (_ & Hmarkup & Hoptions & _); [reflexivity|].
  split; assumption.
Defined.

(** A date search submitted on the loaded page: the spinner shows and
    the request is in flight. *)
Lemma X12_after_submit :
  Exists (fun req => is_search req = true)
         (pending (play EnUS.format "http://127.0.0.1:8000" sample_engine_error
                     [SubmitDate "2023-01-01"] sample_page)).
Proof.
  apply (X12_spinner_means_request_in_flight EnUS.format "http://127.0.0.1:8000"
           sample_engine_error [SubmitDate "2023-01-01"] sample_document
           EmptyString EmptyString EmptyString "<option>Loading dates...</option>").
  - discriminate.
  - vm_compute. reflexivity.
Defined.
